(** * Attendance server (server.js): a shallow embedding and its properties

    The Express application of [server.js] is embedded as pure functions over
    an explicit [World]: the four Mongoose collections, the ObjectId
    allocator and a trace of the store operations that were executed.  Each
    route handler is a function from its request fields and the world to an
    [Outcome] and the next world.  The libraries whose code is not part of
    the repository (the JavaScript engine's date parser and time zone,
    jsonwebtoken, bcryptjs) are the fields of the class [Platform]. *)

From Stdlib Require Import ZArith NArith List String Ascii Bool Lia.
From Stdlib Require Import DecimalString DecimalZ.
Import ListNotations.
Open Scope string_scope.
Open Scope Z_scope.
Open Scope list_scope.

(** ** JavaScript dates

    A Date object holds a time value: a number of milliseconds since the
    epoch, or NaN ("Invalid Date"), written [None]. *)

Definition TimeValue : Type := option Z.

Definition msPerDay : Z := 86400000.
Definition maxTimeValue : Z := 8640000000000000.

Definition TimeClip (t : Z) : TimeValue :=
  if Z.abs t <=? maxTimeValue then Some t else None.

Definition Day (t : Z) : Z := t / msPerDay.

Definition MakeTime (h m s ms : Z) : Z :=
  h * 3600000 + m * 60000 + s * 1000 + ms.

Definition MakeDate (day time : Z) : Z := day * msPerDay + time.

(** ** Identifiers, errors and the libraries

    ObjectIds are opaque values with a decidable equality.  A request
    carries its [lectureId] and [studentId] as ObjectIds already, [None]
    standing for a field that is missing or empty. *)

Definition ObjectId : Type := N.
Definition Salt : Type := N.

Inductive JwtError : Type :=
| JwtMalformed
| JwtInvalidSignature
| TokenExpired.

Inductive JwtResult : Type :=
| JwtErr (err : JwtError)
| JwtUser (username : string).

(** What the code takes from outside the repository.  [LocalTZA] is the
    offset of the server's zone from UTC in milliseconds (a zone without
    clock changes), [Date_parse] the engine's parser behind
    [new Date(string)], [jwt_verify token secret now] the verdict of
    [jwt.verify], and [bcrypt_hash] takes the salt that the library draws
    at random. *)
Class Platform : Type := {
  LocalTZA : Z;
  Date_parse : string -> TimeValue;
  jwt_sign : string -> string -> Z -> string;
  jwt_verify : string -> string -> Z -> JwtResult;
  bcrypt_hash : string -> Salt -> string;
  bcrypt_compare : string -> string -> bool
}.

(** Truthiness of a request field that is a string or undefined. *)
Definition truthy (v : option string) : bool :=
  match v with
  | None => false
  | Some s => negb (String.eqb s "")
  end.

Section Dates.
Context {P : Platform}.

Definition LocalTime (t : Z) : Z := t + LocalTZA.
Definition UTC (t : Z) : Z := t - LocalTZA.

(** [date.setHours(h, m, s, ms)]: the new time value, which the call both
    stores in the Date object and returns. *)
Definition setHours (d : TimeValue) (h m s ms : Z) : TimeValue :=
  match d with
  | None => None
  | Some t => TimeClip (UTC (MakeDate (Day (LocalTime t)) (MakeTime h m s ms)))
  end.

(** [new Date(value)] for a number. *)
Definition new_Date_value (v : TimeValue) : TimeValue :=
  match v with
  | None => None
  | Some t => TimeClip t
  end.

(** [new Date(v)] for a request field [v] (a string, or undefined), and
    [new Date()] when the clock reads [now]. *)
Definition new_Date_field (v : option string) : TimeValue :=
  match v with
  | Some s => Date_parse s
  | None => None
  end.
Definition new_Date_now (now : Z) : TimeValue := Some now.

(** [date ? new Date(date) : new Date()] *)
Definition requestDate (date : option string) (now : Z) : TimeValue :=
  if truthy date then new_Date_field date else new_Date_now now.

(** The two lines
    [start = new Date(date.setHours(0, 0, 0, 0))] and
    [end = new Date(date.setHours(23, 59, 59, 999))]:
    the second call works on the Date object that the first one changed. *)
Definition dayWindow (date : TimeValue) : TimeValue * TimeValue :=
  let u1 := setHours date 0 0 0 0 in
  let date1 := u1 in
  let u2 := setHours date1 23 59 59 999 in
  (new_Date_value u1, new_Date_value u2).

(** Local midnight: the time value is a whole number of days in local time. *)
Definition localMidnight (s : Z) : Prop := (s + LocalTZA) mod msPerDay = 0.

End Dates.

(** ** Documents of the four collections *)

Module User.
Record t : Type := mk { _id : ObjectId; username : string; passwordHash : string }.
End User.

Module Student.
Record t : Type := mk { _id : ObjectId; rollNo : string; name : string; photos : list string }.
End Student.

Module Lecture.
Record t : Type := mk { _id : ObjectId; name : string; roomNo : string; section : string }.
End Lecture.

Module Attendance.
Record t : Type := mk {
  _id : ObjectId;
  lecture : ObjectId;
  date : TimeValue;
  studentsPresent : list ObjectId
}.
End Attendance.

(** ** The world: collections, ObjectId allocator, trace of store operations *)

Inductive StoreOp : Type :=
| User_findOne_op (username : string)
| User_create_op (id : ObjectId)
| User_save_op (id : ObjectId)
| Student_findOne_op (rollNo : string)
| Student_save_op (id : ObjectId)
| Student_find_op
| Student_populate_op (ids : list ObjectId)
| Lecture_find_op
| Lecture_insertMany_op (n : nat)
| Attendance_findOne_op (lecture : ObjectId) (gte lte : Z)
| Attendance_save_op (id : ObjectId).

Record World : Type := mkWorld {
  users : list User.t;
  students : list Student.t;
  lectures : list Lecture.t;
  attendances : list Attendance.t;
  nextId : ObjectId;
  trace : list StoreOp
}.

Definition emptyWorld : World := mkWorld [] [] [] [] 0%N [].

Definition logOp (op : StoreOp) (w : World) : World :=
  mkWorld (users w) (students w) (lectures w) (attendances w) (nextId w)
          (trace w ++ [op]).

Definition allocId (w : World) : ObjectId * World :=
  (nextId w,
   mkWorld (users w) (students w) (lectures w) (attendances w)
           (N.succ (nextId w)) (trace w)).

Definition set_users (us : list User.t) (w : World) : World :=
  mkWorld us (students w) (lectures w) (attendances w) (nextId w) (trace w).
Definition set_students (ss : list Student.t) (w : World) : World :=
  mkWorld (users w) ss (lectures w) (attendances w) (nextId w) (trace w).
Definition set_attendances (atts : list Attendance.t) (w : World) : World :=
  mkWorld (users w) (students w) (lectures w) atts (nextId w) (trace w).

(** A document that was loaded from the store is written back over the
    stored document with its [_id]; a new document is appended. *)
Definition replaceById {A : Type} (id_of : A -> ObjectId) (d : A) (l : list A) : list A :=
  map (fun x => if N.eqb (id_of x) (id_of d) then d else x) l.

Definition saveDoc {A : Type} (id_of : A -> ObjectId) (isNew : bool) (d : A) (l : list A)
  : list A :=
  if isNew then l ++ [d] else replaceById id_of d l.

(** *** User *)

Definition User_findOne (username : string) (w : World) : option User.t * World :=
  (find (fun u => String.eqb (User.username u) username) (users w),
   logOp (User_findOne_op username) w).

Definition User_create (username passwordHash : string) (w : World) : User.t * World :=
  let (id, w1) := allocId w in
  let u := User.mk id username passwordHash in
  (u, logOp (User_create_op id) (set_users (users w1 ++ [u]) w1)).

Definition User_save (u : User.t) (w : World) : World :=
  logOp (User_save_op (User._id u))
        (set_users (saveDoc User._id false u (users w)) w).

(** *** Student *)

Definition Student_findOne (rollNo : string) (w : World) : option Student.t * World :=
  (find (fun s => String.eqb (Student.rollNo s) rollNo) (students w),
   logOp (Student_findOne_op rollNo) w).

Definition new_Student (rollNo name : string) (photos : list string) (w : World)
  : Student.t * World :=
  let (id, w1) := allocId w in (Student.mk id rollNo name photos, w1).

Definition Student_save (isNew : bool) (s : Student.t) (w : World) : World :=
  logOp (Student_save_op (Student._id s))
        (set_students (saveDoc Student._id isNew s (students w)) w).

Definition Student_find (w : World) : list Student.t * World :=
  (students w, logOp Student_find_op w).

(** [.populate('studentsPresent')]: every reference is replaced by the
    student document it names; a reference that names no student is dropped. *)
Fixpoint populate (ids : list ObjectId) (ss : list Student.t) : list Student.t :=
  match ids with
  | [] => []
  | id :: rest =>
      match find (fun s => N.eqb (Student._id s) id) ss with
      | Some s => s :: populate rest ss
      | None => populate rest ss
      end
  end.

(** *** Lecture *)

Definition Lecture_find (w : World) : list Lecture.t * World :=
  (lectures w, logOp Lecture_find_op w).

Fixpoint assignIds (rows : list (string * string * string)) (id : ObjectId) : list Lecture.t :=
  match rows with
  | [] => []
  | (n, r, s) :: rest => Lecture.mk id n r s :: assignIds rest (N.succ id)
  end.

Definition Lecture_insertMany (rows : list (string * string * string)) (w : World)
  : list Lecture.t * World :=
  let docs := assignIds rows (nextId w) in
  (docs,
   logOp (Lecture_insertMany_op (List.length rows))
         (mkWorld (users w) (students w) (lectures w ++ docs) (attendances w)
                  (nextId w + N.of_nat (List.length rows))%N (trace w))).

(** *** Attendance *)

Inductive MongooseError : Type :=
| CastError (path : string).

(** The filter [{ lecture: lectureId, date: { $gte: start, $lte: end } }]. *)
Definition inWindow (lectureId : ObjectId) (s e : Z) (a : Attendance.t) : bool :=
  N.eqb (Attendance.lecture a) lectureId &&
  match Attendance.date a with
  | Some d => (s <=? d) && (d <=? e)
  | None => false
  end.

(** [Attendance.findOne]: the bounds are cast to dates first, and an Invalid
    Date fails the cast, so that the query is rejected before it is run. *)
Definition Attendance_findOne (lectureId : ObjectId) (start end_ : TimeValue) (w : World)
  : (MongooseError + option Attendance.t) * World :=
  match start, end_ with
  | Some s, Some e =>
      (inr (find (inWindow lectureId s e) (attendances w)),
       logOp (Attendance_findOne_op lectureId s e) w)
  | _, _ => (inl (CastError "date"), w)
  end.

Definition new_Attendance (lectureId : ObjectId) (date : TimeValue)
           (studentsPresent : list ObjectId) (w : World) : Attendance.t * World :=
  let (id, w1) := allocId w in (Attendance.mk id lectureId date studentsPresent, w1).

Definition Attendance_save (isNew : bool) (a : Attendance.t) (w : World) : World :=
  logOp (Attendance_save_op (Attendance._id a))
        (set_attendances (saveDoc Attendance._id isNew a (attendances w)) w).

(** ** Responses *)

Record AttendanceView : Type := mkView {
  view_id : option ObjectId;
  view_lecture : ObjectId;
  view_date : TimeValue;
  view_studentsPresent : list Student.t
}.

Inductive Body : Type :=
| StatusText
| Message (message : string)
| TokenJson (token : string)
| StudentsJson (students : list Student.t)
| LecturesJson (lectures : list Lecture.t)
| AttendanceJson (attendance : AttendanceView)
| MarkedJson (message : string) (attendance : Attendance.t)
| RegisteredJson (message : string) (student : Student.t)
| ErrorPage (error : string).

Record Response : Type := mkResponse { status : Z; body : Body }.

(** A handler either answers, or its promise is rejected by the store layer
    and, there being no [catch] around it, no answer is sent. *)
Inductive Outcome : Type :=
| Responded (r : Response)
| Rejected (e : MongooseError).

Definition sendStatus (code : Z) : Outcome := Responded (mkResponse code StatusText).
Definition json (b : Body) : Outcome := Responded (mkResponse 200 b).
Definition status_json (code : Z) (b : Body) : Outcome := Responded (mkResponse code b).

Record File : Type := mkFile { filename : string }.

Definition JWT_SECRET : string := "your_jwt_secret_here".

(** [s.split(sep)] for a one-character separator. *)
Fixpoint split (sep : ascii) (s : string) : list string :=
  match s with
  | EmptyString => [EmptyString]
  | String c rest =>
      if Ascii.eqb c sep then EmptyString :: split sep rest
      else match split sep rest with
           | [] => [String c EmptyString]
           | piece :: pieces => String c piece :: pieces
           end
  end.

(** [authHeader && authHeader.split(' ')[1]] *)
Definition bearerToken (authHeader : option string) : option string :=
  match authHeader with
  | Some h => if truthy authHeader then nth_error (split " "%char h) 1 else authHeader
  | None => None
  end.

Definition seedLectures : list (string * string * string) :=
  [ ("Discrete Mathematics", "CS2005", "2FA");
    ("Computer Organisation", "BSCS100", "2AA");
    ("DBMS", "BCO1005", "2CA");
    ("English", "BELH 0081", "2XX");
    ("HTML", "PCPH0001", "2XN") ].

Definition push (studentId : ObjectId) (a : Attendance.t) : Attendance.t :=
  Attendance.mk (Attendance._id a) (Attendance.lecture a) (Attendance.date a)
                (Attendance.studentsPresent a ++ [studentId]).

Definition includes (studentId : ObjectId) (l : list ObjectId) : bool :=
  existsb (N.eqb studentId) l.

Definition set_passwordHash (h : string) (u : User.t) : User.t :=
  User.mk (User._id u) (User.username u) h.

(** ** The handlers *)

Section Handlers.
Context {P : Platform}.

(** The self-invoking function that seeds the demo user at start-up. *)
Definition seedDemoUser (salt : Salt) (w : World) : World :=
  let (user, w1) := User_findOne "Akash" w in
  match user with
  | Some _ => w1
  | None => snd (User_create "Akash" (bcrypt_hash "12345" salt) w1)
  end.

(** [authenticateToken(req, res, next)]; [next] receives [req.user.username]. *)
Definition authenticateToken (authHeader : option string) (now : Z)
           (next : string -> World -> Outcome * World) (w : World) : Outcome * World :=
  let token := bearerToken authHeader in
  if negb (truthy token) then (sendStatus 401, w)
  else
    match token with
    | Some tok =>
        match jwt_verify tok JWT_SECRET now with
        | JwtErr _ => (sendStatus 403, w)
        | JwtUser user => next user w
        end
    | None => (sendStatus 401, w)
    end.

(** POST /api/login *)
Definition post_api_login (username password : string) (now : Z) (w : World)
  : Outcome * World :=
  let (user, w1) := User_findOne username w in
  match user with
  | None => (status_json 400 (Message "Invalid username or password"), w1)
  | Some u =>
      let valid := bcrypt_compare password (User.passwordHash u) in
      if negb valid then (status_json 400 (Message "Invalid username or password"), w1)
      else (json (TokenJson (jwt_sign (User.username u) JWT_SECRET now)), w1)
  end.

(** POST /api/change-password *)
Definition post_api_change_password (req_user : string)
           (currentPassword newPassword : string) (salt : Salt) (w : World)
  : Outcome * World :=
  let (user, w1) := User_findOne req_user w in
  match user with
  | None => (status_json 404 (Message "User not found"), w1)
  | Some u =>
      let valid := bcrypt_compare currentPassword (User.passwordHash u) in
      if negb valid then (status_json 400 (Message "Current password incorrect"), w1)
      else
        let u' := set_passwordHash (bcrypt_hash newPassword salt) u in
        let w2 := User_save u' w1 in
        (json (Message "Password changed successfully"), w2)
  end.

(** POST /api/students, on the [req.body] fields and the [req.files] that
    the upload middleware hands over. *)
Definition post_api_students (rollNo name : option string)
           (files : option (list File)) (w : World) : Outcome * World :=
  match rollNo, name with
  | Some r, Some n =>
      if negb (truthy rollNo) || negb (truthy name)
      then (status_json 400 (Message "Roll No and Name are required"), w)
      else
        match files with
        | Some fs =>
            if negb (Nat.eqb (List.length fs) 2)
            then (status_json 400 (Message "Two photos required"), w)
            else
              let photos := map (fun file => ("/uploads/students/" ++ filename file)%string) fs in
              let (existingStudent, w1) := Student_findOne r w in
              match existingStudent with
              | Some _ =>
                  (status_json 400 (Message "Student with this roll no already exists"), w1)
              | None =>
                  let (student, w2) := new_Student r n photos w1 in
                  let w3 := Student_save true student w2 in
                  (json (RegisteredJson "Student registered" student), w3)
              end
        | None => (status_json 400 (Message "Two photos required"), w)
        end
  | _, _ => (status_json 400 (Message "Roll No and Name are required"), w)
  end.

(** GET /api/students *)
Definition get_api_students (w : World) : Outcome * World :=
  let (students, w1) := Student_find w in (json (StudentsJson students), w1).

(** GET /api/lectures *)
Definition get_api_lectures (w : World) : Outcome * World :=
  let (lectures, w1) := Lecture_find w in
  if Nat.eqb (List.length lectures) 0 then
    let (seeded, w2) := Lecture_insertMany seedLectures w1 in
    (json (LecturesJson seeded), w2)
  else (json (LecturesJson lectures), w1).

(** GET /api/attendance/:lectureId *)
Definition get_api_attendance (lectureId : ObjectId) (date : option string)
           (now : Z) (w : World) : Outcome * World :=
  let date := requestDate date now in
  let (start, end_) := dayWindow date in
  match Attendance_findOne lectureId start end_ w with
  | (inl e, w1) => (Rejected e, w1)
  | (inr (Some a), w1) =>
      let ids := Attendance.studentsPresent a in
      let populated :=
        mkView (Some (Attendance._id a)) (Attendance.lecture a) (Attendance.date a)
               (populate ids (students w1)) in
      (json (AttendanceJson populated), logOp (Student_populate_op ids) w1)
  | (inr None, w1) =>
      (json (AttendanceJson (mkView None lectureId start [])), w1)
  end.

(** POST /api/attendance/mark *)
Definition post_api_attendance_mark (lectureId studentId : option ObjectId)
           (date : option string) (now : Z) (w : World) : Outcome * World :=
  match lectureId, studentId with
  | Some lectureId, Some studentId =>
      let attendanceDate := requestDate date now in
      let (start, end_) := dayWindow attendanceDate in
      match Attendance_findOne lectureId start end_ w with
      | (inl e, w1) => (Rejected e, w1)
      | (inr found, w1) =>
          let '(attendance, isNew, w2) :=
            match found with
            | Some a => (a, false, w1)
            | None =>
                let (a, w') := new_Attendance lectureId start [] w1 in (a, true, w')
            end in
          if negb (includes studentId (Attendance.studentsPresent attendance)) then
            let attendance := push studentId attendance in
            let w3 := Attendance_save isNew attendance w2 in
            (json (MarkedJson "Attendance marked" attendance), w3)
          else (status_json 400 (Message "Student already marked present"), w2)
      end
  | _, _ => (status_json 400 (Message "lectureId and studentId required"), w)
  end.

End Handlers.

(** ** The upload middleware

    [upload.array('photos', maxCount)], which stands between the gate and
    the registration handler.  [files] are the files that the request
    carries in the form field, or [None] for a request that is not a
    multipart form.  They are handed on as [req.files]; with more files
    than [maxCount] the upload fails with "Unexpected field", the error
    goes to Express, which answers it with status 500, and the next
    function is not called. *)

Definition uploadError : Outcome :=
  Responded (mkResponse 500 (ErrorPage "MulterError: Unexpected field")).

Definition upload_array (maxCount : nat) (files : option (list File))
           (next : option (list File) -> World -> Outcome * World) (w : World)
  : Outcome * World :=
  match files with
  | Some fs => if Nat.ltb maxCount (List.length fs) then (uploadError, w) else next files w
  | None => next files w
  end.

(** ** The application: routes behind the access gate *)

Inductive Route : Type :=
| POST_login (username password : string)
| POST_change_password (currentPassword newPassword : string)
| POST_students (rollNo name : option string) (files : option (list File))
| GET_students
| GET_lectures
| GET_attendance (lectureId : ObjectId) (date : option string)
| POST_attendance_mark (lectureId studentId : option ObjectId) (date : option string).

(** A request with what the server reads from its surroundings while it
    serves it: the clock and the salt drawn for a new hash. *)
Record Request : Type := mkRequest {
  authorization : option string;
  route : Route;
  now : Z;
  salt : Salt
}.

Section App.
Context {P : Platform}.

Definition handler (r : Route) (now : Z) (salt : Salt) (req_user : string)
  : World -> Outcome * World :=
  match r with
  | POST_login username password => post_api_login username password now
  | POST_change_password c n => post_api_change_password req_user c n salt
  | POST_students rollNo name files =>
      upload_array 2 files (post_api_students rollNo name)
  | GET_students => get_api_students
  | GET_lectures => get_api_lectures
  | GET_attendance lectureId date => get_api_attendance lectureId date now
  | POST_attendance_mark l s date => post_api_attendance_mark l s date now
  end.

Definition app (req : Request) (w : World) : Outcome * World :=
  match route req with
  | POST_login username password => post_api_login username password (now req) w
  | r => authenticateToken (authorization req) (now req)
                           (handler r (now req) (salt req)) w
  end.

Fixpoint serve (reqs : list Request) (w : World) : World :=
  match reqs with
  | [] => w
  | req :: rest => serve rest (snd (app req w))
  end.

End App.

(** ** A platform to run the model on

    The zone is UTC+05:30; the parser knows two ISO texts; three tokens
    stand for a valid, an expired and a forged signature, every other text
    is not a token at all. *)

Definition demo_parse (s : string) : TimeValue :=
  if String.eqb s "2024-03-01" then Some 1709251200000
  else if String.eqb s "2024-03-01T10:00:00.000Z" then Some 1709287200000
  else None.

Definition demo_verify (token secret : string) (now : Z) : JwtResult :=
  if String.eqb token "akash.session.valid" then JwtUser "Akash"
  else if String.eqb token "akash.session.old" then JwtErr TokenExpired
  else if String.eqb token "akash.session.forged" then JwtErr JwtInvalidSignature
  else JwtErr JwtMalformed.

Definition demoPlatform : Platform := {|
  LocalTZA := 19800000;
  Date_parse := demo_parse;
  jwt_sign := fun username secret now => "akash.session.valid";
  jwt_verify := demo_verify;
  bcrypt_hash := fun password salt => ("$2a$10$" ++ password)%string;
  bcrypt_compare := fun password hash => String.eqb hash ("$2a$10$" ++ password)%string
|}.

(** The part of the world that is stored: everything but the trace. *)
Definition sameStore (w w' : World) : Prop :=
  users w' = users w /\ students w' = students w /\ lectures w' = lectures w /\
  attendances w' = attendances w /\ nextId w' = nextId w.

(** A roster with one student, and a ledger with one mark of that student
    for lecture 5 on 1 March 2024. *)

Definition twoPhotos : list File := [mkFile "photos-1.jpg"; mkFile "photos-2.jpg"].

Definition demoRoster : World :=
  snd (post_api_students (Some "R1") (Some "Asha") (Some twoPhotos) emptyWorld).

Definition demoLedger : World :=
  snd (@post_api_attendance_mark demoPlatform (Some 5%N) (Some 0%N) (Some "2024-03-01") 0
                                 demoRoster).

Definition demoUsers : World := @seedDemoUser demoPlatform 0%N emptyWorld.

Definition gatedRequest (authHeader : option string) (r : Route) : Request :=
  mkRequest authHeader r 1709287200000 0%N.

(** ** Vocabulary of the ledger properties *)

Definition is_gated (r : Route) : bool :=
  match r with
  | POST_login _ _ => false
  | _ => true
  end.

(** The key of a record: its lecture and its date. *)
Definition dayKey (a : Attendance.t) : ObjectId * TimeValue :=
  (Attendance.lecture a, Attendance.date a).



Definition rollCount (rollNo : string) (ss : list Student.t) : nat :=
  List.length (filter (fun s => String.eqb (Student.rollNo s) rollNo) ss).

Definition lectureRow (l : Lecture.t) : string * string * string :=
  (Lecture.name l, Lecture.roomNo l, Lecture.section l).

Section LedgerVocabulary.
Context {P : Platform}.

(** What the stored ledger looks like after any run of the server. *)
Definition ledger_ok (w : World) : Prop :=
  NoDup (map Attendance._id (attendances w)) /\
  (forall a, In a (attendances w) -> (Attendance._id a < nextId w)%N) /\
  (forall a, In a (attendances w) ->
             exists d, Attendance.date a = Some d /\ localMidnight d) /\
  NoDup (map dayKey (attendances w)).

(** What one request can do to the ledger. *)
Inductive LedgerEffect (req : Request) (w w' : World) : Prop :=
| Untouched :
    attendances w' = attendances w ->
    (nextId w <= nextId w')%N ->
    LedgerEffect req w w'
| Created (lectureId studentId : ObjectId) (date : option string) (s e : Z) :
    route req = POST_attendance_mark (Some lectureId) (Some studentId) date ->
    dayWindow (requestDate date (now req)) = (Some s, Some e) ->
    find (inWindow lectureId s e) (attendances w) = None ->
    attendances w'
    = attendances w ++ [Attendance.mk (nextId w) lectureId (Some s) [studentId]] ->
    nextId w' = N.succ (nextId w) ->
    LedgerEffect req w w'
| Added (lectureId studentId : ObjectId) (date : option string) (s e : Z) (a : Attendance.t) :
    route req = POST_attendance_mark (Some lectureId) (Some studentId) date ->
    dayWindow (requestDate date (now req)) = (Some s, Some e) ->
    find (inWindow lectureId s e) (attendances w) = Some a ->
    includes studentId (Attendance.studentsPresent a) = false ->
    attendances w' = replaceById Attendance._id (push studentId a) (attendances w) ->
    nextId w' = nextId w ->
    LedgerEffect req w w'.

End LedgerVocabulary.

(** Closes a goal [LedgerEffect req w w'] when [w'] has the records of [w]. *)
Ltac untouched := apply Untouched; simpl; [reflexivity | lia].

(** ** Vocabulary of the roster, header and session properties *)

(** A text without a space character. *)
Fixpoint noSpace (s : string) : bool :=
  match s with
  | EmptyString => true
  | String c rest => negb (Ascii.eqb c " "%char) && noSpace rest
  end.

Definition byUsername (username : string) (u : User.t) : bool :=
  String.eqb (User.username u) username.

Definition byRollNo (rollNo : string) (s : Student.t) : bool :=
  String.eqb (Student.rollNo s) rollNo.

Definition photoPath (f : File) : string := ("/uploads/students/" ++ filename f)%string.

(** What every stored student looks like after any run of the server. *)
Definition student_ok (s : Student.t) : Prop :=
  Student.rollNo s <> "" /\ Student.name s <> "" /\
  List.length (Student.photos s) = 2%nat /\
  Forall (fun p => String.prefix "/uploads/students/" p = true) (Student.photos s).

Definition roster_ok (w : World) : Prop :=
  NoDup (map Student.rollNo (students w)) /\ Forall student_ok (students w).

(** The routes whose handler writes to a collection. *)
Definition writes (r : Route) : bool :=
  match r with
  | POST_change_password _ _ => true
  | POST_students _ _ _ => true
  | GET_lectures => true
  | POST_attendance_mark _ _ _ => true
  | _ => false
  end.

(** ** The names of the stored photo files

    The [filename] function of the multer storage: the extension of the
    original name, by [path.extname], which is taken as a parameter, and
    then [file.fieldname + '-' + Date.now() + ext].  The clock reading is a
    whole number, which JavaScript turns into its decimal digits. *)

Definition Number_toString (n : Z) : string := NilEmpty.string_of_int (Z.to_int n).

Definition storage_filename (extname : string -> string)
           (fieldname originalname : string) (now : Z) : string :=
  let ext := extname originalname in
  (fieldname ++ "-" ++ Number_toString now ++ ext)%string.

(** ** The mark handler on the text of the request

    The handlers above take the ids of a request as ObjectIds.  The
    request body holds text.  [Attendance.findOne] and [new Attendance]
    cast the text of [lectureId] to an ObjectId, and [push] casts the text
    of [studentId]; but [includes] is called with the text itself, before
    any cast, and mongoose compares it with each stored id through the
    id's hexadecimal string.  [castObjectId] and [toHexString] are the two
    functions of the bson library. *)

Class Bson : Type := {
  castObjectId : string -> option ObjectId;
  toHexString : ObjectId -> string
}.

Section MarkText.
Context {P : Platform} {B : Bson}.

(** [attendance.studentsPresent.includes(studentId)] *)
Definition includes_text (studentId : string) (l : list ObjectId) : bool :=
  existsb (fun id => String.eqb studentId (toHexString id)) l.

(** POST /api/attendance/mark, on the text of [req.body] *)
Definition post_api_attendance_mark_text (lectureId studentId date : option string)
           (now : Z) (w : World) : Outcome * World :=
  if negb (truthy lectureId) || negb (truthy studentId)
  then (status_json 400 (Message "lectureId and studentId required"), w)
  else
    match lectureId, studentId with
    | Some lectureText, Some studentText =>
        let attendanceDate := requestDate date now in
        let (start, end_) := dayWindow attendanceDate in
        match castObjectId lectureText with
        | None => (Rejected (CastError "lecture"), w)
        | Some lectureId =>
            match Attendance_findOne lectureId start end_ w with
            | (inl e, w1) => (Rejected e, w1)
            | (inr found, w1) =>
                let '(attendance, isNew, w2) :=
                  match found with
                  | Some a => (a, false, w1)
                  | None =>
                      let (a, w') := new_Attendance lectureId start [] w1 in (a, true, w')
                  end in
                if negb (includes_text studentText (Attendance.studentsPresent attendance))
                then
                  match castObjectId studentText with
                  | None => (Rejected (CastError "studentsPresent"), w2)
                  | Some studentId =>
                      let attendance := push studentId attendance in
                      let w3 := Attendance_save isNew attendance w2 in
                      (json (MarkedJson "Attendance marked" attendance), w3)
                  end
                else (status_json 400 (Message "Student already marked present"), w2)
            end
        end
    | _, _ => (status_json 400 (Message "lectureId and studentId required"), w)
    end.

End MarkText.

(** A bson library to run the model on: an id is cast from 24 hexadecimal
    digits in either case and printed as 24 digits in lower case. *)

Definition hexDigit (n : N) : ascii :=
  nth (N.to_nat n)
      ["0"; "1"; "2"; "3"; "4"; "5"; "6"; "7"; "8"; "9"; "a"; "b"; "c"; "d"; "e"; "f"]%char
      "0"%char.

Fixpoint hexString (digits : nat) (n : N) : string :=
  match digits with
  | O => EmptyString
  | S d => (hexString d (n / 16)%N ++ String (hexDigit (n mod 16)%N) EmptyString)%string
  end.

Definition hexValue (c : ascii) : option N :=
  let n := N_of_ascii c in
  if ((48 <=? n) && (n <=? 57))%N then Some (n - 48)%N
  else if ((65 <=? n) && (n <=? 70))%N then Some (n - 55)%N
  else if ((97 <=? n) && (n <=? 102))%N then Some (n - 87)%N
  else None.

Fixpoint hexNumber (s : string) (acc : N) : option N :=
  match s with
  | EmptyString => Some acc
  | String c rest =>
      match hexValue c with
      | Some d => hexNumber rest (16 * acc + d)%N
      | None => None
      end
  end.

Definition demoBson : Bson := {|
  castObjectId := fun s => if Nat.eqb (String.length s) 24 then hexNumber s 0%N else None;
  toHexString := hexString 24
|}.

(** * Properties *)

(** ** Day windows *)

Section DateFacts.
Context {P : Platform}.

Lemma TimeClip_Some (t u : Z) : TimeClip t = Some u -> u = t /\ Z.abs t <= maxTimeValue.
Proof.
  unfold TimeClip. destruct (Z.leb_spec (Z.abs t) maxTimeValue) as [B | B];
    intros E; [| discriminate E].
  injection E as <-. split; [reflexivity | exact B].
Qed.

Lemma TimeClip_idem (t u : Z) : TimeClip t = Some u -> TimeClip u = Some u.
Proof.
  intros H. destruct (TimeClip_Some _ _ H) as [-> _]. exact H.
Qed.

Lemma new_Date_value_TimeClip (t : Z) : new_Date_value (TimeClip t) = TimeClip t.
Proof.
  destruct (TimeClip t) as [u|] eqn:E; simpl; [| reflexivity].
  exact (TimeClip_idem _ _ E).
Qed.

Lemma setHours_midnight (t s : Z) :
  setHours (Some t) 0 0 0 0 = Some s ->
  localMidnight s /\ s <= t < s + msPerDay.
Proof.
  unfold setHours, UTC, MakeDate, MakeTime, Day, LocalTime, localMidnight.
  intros H. apply TimeClip_Some in H. destruct H as [-> _].
  assert (D : 0 < msPerDay) by (unfold msPerDay; lia).
  pose proof (Z.div_mod (t + LocalTZA) msPerDay ltac:(lia)) as E.
  pose proof (Z.mod_pos_bound (t + LocalTZA) msPerDay D) as B.
  split.
  - replace ((t + LocalTZA) / msPerDay * msPerDay + (0 * 3600000 + 0 * 60000 + 0 * 1000 + 0)
             - LocalTZA + LocalTZA)
      with ((t + LocalTZA) / msPerDay * msPerDay) by lia.
    apply Z.mod_mul. lia.
  - lia.
Qed.

Lemma setHours_last_ms (s : Z) :
  localMidnight s ->
  setHours (Some s) 23 59 59 999 = TimeClip (s + 86399999).
Proof.
  unfold setHours, UTC, MakeDate, MakeTime, Day, LocalTime, localMidnight.
  intros M. f_equal.
  assert (D : 0 < msPerDay) by (unfold msPerDay; lia).
  pose proof (Z.div_mod (s + LocalTZA) msPerDay ltac:(lia)) as E.
  rewrite M in E. lia.
Qed.

(** A valid window is one local day: it starts at the local midnight at
    or before the date and ends on that day's last millisecond. *)
Lemma dayWindow_valid (t s e : Z) :
  dayWindow (Some t) = (Some s, Some e) ->
  localMidnight s /\ s <= t < s + msPerDay /\ e = s + 86399999.
Proof.
  unfold dayWindow. intros H.
  destruct (setHours (Some t) 0 0 0 0) as [s0|] eqn:E0; [| discriminate H].
  destruct (setHours_midnight _ _ E0) as [M B].
  rewrite (setHours_last_ms _ M) in H.
  rewrite new_Date_value_TimeClip in H.
  assert (C0 : TimeClip s0 = Some s0).
  { unfold setHours in E0. eapply TimeClip_idem. exact E0. }
  simpl in H. rewrite C0 in H.
  inversion H as [[Hs He]]. subst s0.
  apply TimeClip_Some in He. destruct He as [-> _]. auto.
Qed.

Lemma dayWindow_invalid : dayWindow None = (None, None).
Proof. reflexivity. Qed.

(** The window depends on the day only. *)
Lemma dayWindow_start_fixpoint (t s e : Z) :
  dayWindow (Some t) = (Some s, Some e) -> dayWindow (Some s) = (Some s, Some e).
Proof.
  intros H. destruct (dayWindow_valid _ _ _ H) as (M & B & ->).
  unfold dayWindow in *.
  destruct (setHours (Some t) 0 0 0 0) as [s0|] eqn:E0; [| discriminate H].
  destruct (setHours_midnight _ _ E0) as [M0 B0].
  rewrite (setHours_last_ms _ M0), new_Date_value_TimeClip in H.
  assert (C0 : TimeClip s0 = Some s0).
  { unfold setHours in E0. eapply TimeClip_idem. exact E0. }
  simpl in H. rewrite C0 in H. inversion H as [[Hs He]]. subst s0.
  assert (E1 : setHours (Some s) 0 0 0 0 = Some s).
  { unfold setHours, UTC, MakeDate, MakeTime, Day, LocalTime.
    unfold localMidnight in M.
    pose proof (Z.div_mod (s + LocalTZA) msPerDay ltac:(unfold msPerDay; lia)) as E.
    rewrite M in E.
    replace ((s + LocalTZA) / msPerDay * msPerDay
             + (0 * 3600000 + 0 * 60000 + 0 * 1000 + 0) - LocalTZA) with s by lia.
    exact C0. }
  rewrite E1, (setHours_last_ms _ M), new_Date_value_TimeClip. simpl.
  rewrite C0, He. reflexivity.
Qed.


End DateFacts.

(** ** Lists of documents *)

Section ListFacts.
Context {A : Type}.

Lemma find_app_miss (p : A -> bool) (l : list A) (x : A) :
  find p l = None -> find p (l ++ [x]) = if p x then Some x else None.
Proof.
  induction l as [| y l IH]; simpl; [reflexivity |].
  destruct (p y); [discriminate | exact IH].
Qed.

Lemma find_none_iff (p : A -> bool) (l : list A) :
  find p l = None <-> forall x, In x l -> p x = false.
Proof.
  split.
  - intros H x Hx. exact (find_none p l H x Hx).
  - induction l as [| y l IH]; simpl; intros H; [reflexivity |].
    rewrite (H y (or_introl eq_refl)). apply IH. intros x Hx. apply H. now right.
Qed.

(** Writing a loaded document back does not change which document a
    filter finds first, as long as the new version still passes it. *)
Lemma find_replaceById (id_of : A -> ObjectId) (p : A -> bool) (l : list A) (d d' : A) :
  find p l = Some d -> id_of d' = id_of d -> p d' = true ->
  find p (replaceById id_of d' l) = Some d'.
Proof.
  intros F I Pd'. induction l as [| y l IH]; simpl in *; [discriminate |].
  destruct (N.eqb_spec (id_of y) (id_of d')) as [E | E].
  - rewrite Pd'. reflexivity.
  - destruct (p y) eqn:Py.
    + injection F as ->. congruence.
    + apply IH, F.
Qed.

Lemma replaceById_length (id_of : A -> ObjectId) (d : A) (l : list A) :
  List.length (replaceById id_of d l) = List.length l.
Proof. apply length_map. Qed.

Lemma replaceById_map (B : Type) (f : A -> B) (id_of : A -> ObjectId) (d d' : A) (l : list A) :
  In d l -> NoDup (map id_of l) -> id_of d' = id_of d -> f d' = f d ->
  map f (replaceById id_of d' l) = map f l.
Proof.
  intros Hin ND I F. unfold replaceById. rewrite map_map.
  apply map_ext_in. intros x Hx.
  destruct (N.eqb_spec (id_of x) (id_of d')) as [E | E]; [| reflexivity].
  rewrite F. f_equal.
  rewrite I in E. clear - Hin Hx ND E.
  induction l as [| y l IH]; simpl in *; [contradiction |].
  inversion ND as [| ? ? Hy ND']; subst.
  destruct Hin as [-> | Hin], Hx as [-> | Hx]; auto.
  - exfalso. apply Hy. rewrite <- E. now apply in_map.
  - exfalso. apply Hy. rewrite E. now apply in_map.
Qed.

Lemma replaceById_nth (id_of : A -> ObjectId) (d d' : A) (l : list A) (i : nat) (x : A) :
  In d l -> NoDup (map id_of l) -> id_of d' = id_of d ->
  nth_error l i = Some x ->
  nth_error (replaceById id_of d' l) i = Some (if N.eqb (id_of x) (id_of d) then d' else x)
  /\ (N.eqb (id_of x) (id_of d) = true <-> x = d).
Proof.
  intros Hin ND I Hx. unfold replaceById. rewrite nth_error_map, Hx. simpl.
  rewrite I. split; [reflexivity |].
  split; [| intros ->; apply N.eqb_refl].
  intros E. apply N.eqb_eq in E. apply nth_error_In in Hx.
  clear - Hin Hx ND E.
  induction l as [| y l IH]; simpl in *; [contradiction |].
  inversion ND as [| ? ? Hy ND']; subst.
  destruct Hin as [-> | Hin], Hx as [-> | Hx]; auto.
  - exfalso. apply Hy. rewrite <- E. now apply in_map.
  - exfalso. apply Hy. rewrite E. now apply in_map.
Qed.

Lemma NoDup_snoc (l : list A) (x : A) : NoDup l -> ~ In x l -> NoDup (l ++ [x]).
Proof.
  induction l as [| y l IH]; simpl; intros ND Hx.
  - constructor; [intros [] | constructor].
  - inversion ND as [| ? ? Hy ND']; subst. constructor.
    + intros H. apply in_app_or in H. destruct H as [H | [-> | []]]; auto.
    + apply IH; auto.
Qed.

Lemma filter_at_most_one (B : Type) (f : A -> B) (k : B) (p : A -> bool) (l : list A) :
  NoDup (map f l) ->
  (forall x, In x l -> p x = true -> f x = k) ->
  (List.length (filter p l) <= 1)%nat.
Proof.
  induction l as [| y l IH]; simpl; intros ND K; [lia |].
  inversion ND as [| ? ? Hy ND']; subst.
  assert (IH' := IH ND' (fun x Hx => K x (or_intror Hx))).
  destruct (p y) eqn:Py; [| exact IH'].
  assert (E : filter p l = []).
  { destruct (filter p l) as [| z zs] eqn:F; [reflexivity |].
    exfalso. assert (Hz : In z (filter p l)) by (rewrite F; now left).
    apply filter_In in Hz. destruct Hz as [Hz Pz].
    apply Hy. rewrite (K y (or_introl eq_refl) Py), <- (K z (or_intror Hz) Pz).
    now apply in_map. }
  rewrite E. simpl. lia.
Qed.

End ListFacts.

(** ** The attendance ledger *)

Section Ledger.
Context {P : Platform}.

Lemma get_api_attendance_valid (lectureId : ObjectId) (date : option string) (now : Z)
      (w : World) (s e : Z) :
  dayWindow (requestDate date now) = (Some s, Some e) ->
  get_api_attendance lectureId date now w =
  match find (inWindow lectureId s e) (attendances w) with
  | Some a =>
      (json (AttendanceJson
               (mkView (Some (Attendance._id a)) (Attendance.lecture a) (Attendance.date a)
                       (populate (Attendance.studentsPresent a) (students w)))),
       logOp (Student_populate_op (Attendance.studentsPresent a))
             (logOp (Attendance_findOne_op lectureId s e) w))
  | None =>
      (json (AttendanceJson (mkView None lectureId (Some s) [])),
       logOp (Attendance_findOne_op lectureId s e) w)
  end.
Proof.
  intros W. unfold get_api_attendance. rewrite W. unfold Attendance_findOne.
  destruct (find (inWindow lectureId s e) (attendances w)); reflexivity.
Qed.

Lemma get_api_attendance_invalid (lectureId : ObjectId) (date : option string) (now : Z)
      (w : World) :
  requestDate date now = None ->
  get_api_attendance lectureId date now w = (Rejected (CastError "date"), w).
Proof.
  intros D. unfold get_api_attendance. rewrite D. reflexivity.
Qed.

Lemma post_api_attendance_mark_valid (lectureId studentId : ObjectId)
      (date : option string) (now : Z) (w : World) (s e : Z) :
  dayWindow (requestDate date now) = (Some s, Some e) ->
  post_api_attendance_mark (Some lectureId) (Some studentId) date now w =
  let w1 := logOp (Attendance_findOne_op lectureId s e) w in
  match find (inWindow lectureId s e) (attendances w) with
  | Some a =>
      if includes studentId (Attendance.studentsPresent a)
      then (status_json 400 (Message "Student already marked present"), w1)
      else (json (MarkedJson "Attendance marked" (push studentId a)),
            Attendance_save false (push studentId a) w1)
  | None =>
      let a := Attendance.mk (nextId w) lectureId (Some s) [studentId] in
      (json (MarkedJson "Attendance marked" a),
       Attendance_save true a (snd (allocId w1)))
  end.
Proof.
  intros W. unfold post_api_attendance_mark. rewrite W. unfold Attendance_findOne.
  destruct (find (inWindow lectureId s e) (attendances w)) as [a |]; simpl.
  - destruct (includes studentId (Attendance.studentsPresent a)); reflexivity.
  - reflexivity.
Qed.

Lemma post_api_attendance_mark_invalid (lectureId studentId : ObjectId)
      (date : option string) (now : Z) (w : World) :
  requestDate date now = None ->
  post_api_attendance_mark (Some lectureId) (Some studentId) date now w
  = (Rejected (CastError "date"), w).
Proof.
  intros D. unfold post_api_attendance_mark. rewrite D. reflexivity.
Qed.

Lemma get_api_attendance_sameStore (lectureId : ObjectId) (date : option string) (now : Z)
      (w : World) :
  sameStore w (snd (get_api_attendance lectureId date now w)).
Proof.
  unfold get_api_attendance.
  destruct (dayWindow (requestDate date now)) as [start end_].
  unfold Attendance_findOne.
  destruct start as [s |]; [| repeat split].
  destruct end_ as [e |]; [| repeat split].
  destruct (find (inWindow lectureId s e) (attendances w)); repeat split.
Qed.

(** C3: a query for a lecture and a day that have no record in the store
    is answered, with status 200, by the record made up on the spot:
    the lecture asked for, the start of the day window, which is the
    local midnight of the day asked for, and nobody present. *)
Theorem query_without_record (lectureId : ObjectId) (date : option string) (now : Z)
        (w : World) (s e : Z) :
  dayWindow (requestDate date now) = (Some s, Some e) ->
  (forall a, In a (attendances w) -> inWindow lectureId s e a = false) ->
  fst (get_api_attendance lectureId date now w)
  = Responded (mkResponse 200 (AttendanceJson (mkView None lectureId (Some s) [])))
  /\ localMidnight s
  /\ exists t, requestDate date now = Some t /\ s <= t < s + msPerDay.
Proof.
  intros W Hnone.
  rewrite (get_api_attendance_valid _ _ _ _ _ _ W).
  apply find_none_iff in Hnone. rewrite Hnone. split; [reflexivity |].
  destruct (requestDate date now) as [t |] eqn:D; [| discriminate W].
  destruct (dayWindow_valid _ _ _ W) as (M & B & _).
  split; [exact M |]. exists t. split; [reflexivity | exact B].
Qed.

(** C9: the query handler leaves every collection and the ObjectId
    allocator as they were, whether it finds a record, makes up the empty
    one or is rejected; behind the gate as well. *)
Theorem query_keeps_store (lectureId : ObjectId) (date : option string) (now : Z)
        (w : World) :
  sameStore w (snd (get_api_attendance lectureId date now w))
  /\ forall (auth : option string) (salt : Salt),
      sameStore w (snd (app (mkRequest auth (GET_attendance lectureId date) now salt) w)).
Proof.
  split; [apply get_api_attendance_sameStore |].
  intros auth salt. unfold app, authenticateToken. simpl.
  destruct (truthy (bearerToken auth)); simpl; [| repeat split].
  destruct (bearerToken auth) as [tok |]; [| repeat split].
  destruct (jwt_verify tok JWT_SECRET now);
    [repeat split | apply get_api_attendance_sameStore].
Qed.

(** C4, as the code has it: a date that is left out or empty stands for
    the current time.  A text that is not empty and does not parse is an
    Invalid Date, not the current time: its window has neither start nor
    end, the look-up is rejected on the cast of its bounds, and neither
    handler answers or touches the store. *)
Theorem unparseable_date_is_invalid (text : string) (now : Z)
        (lectureId studentId : ObjectId) (w : World) :
  text <> "" ->
  Date_parse text = None ->
  requestDate None now = Some now
  /\ requestDate (Some "") now = Some now
  /\ requestDate (Some text) now = None
  /\ dayWindow (requestDate (Some text) now) = (None, None)
  /\ get_api_attendance lectureId (Some text) now w = (Rejected (CastError "date"), w)
  /\ post_api_attendance_mark (Some lectureId) (Some studentId) (Some text) now w
     = (Rejected (CastError "date"), w).
Proof.
  intros NE U.
  assert (D : requestDate (Some text) now = None).
  { unfold requestDate, truthy. destruct (String.eqb_spec text ""); [contradiction |].
    simpl. exact U. }
  repeat split; try reflexivity; try exact D.
  - rewrite D. reflexivity.
  - apply get_api_attendance_invalid, D.
  - apply post_api_attendance_mark_invalid, D.
Qed.

End Ledger.

(** ** Reachable ledgers *)

Section Reachable.
Context {P : Platform}.

Lemma upload_array_cases (maxCount : nat) (files : option (list File))
      (next : option (list File) -> World -> Outcome * World) (w : World) :
  (exists fs, files = Some fs /\ (maxCount < List.length fs)%nat
              /\ upload_array maxCount files next w = (uploadError, w))
  \/ (match files with
      | Some fs => (List.length fs <= maxCount)%nat
      | None => True
      end
      /\ upload_array maxCount files next w = next files w).
Proof.
  unfold upload_array. destruct files as [fs |]; [| right; split; [exact I | reflexivity]].
  destruct (Nat.ltb_spec maxCount (List.length fs)) as [H | H].
  - left. exists fs. repeat split. exact H.
  - right. split; [exact H | reflexivity].
Qed.

Lemma handler_effect (req : Request) (user : string) (w : World) :
  LedgerEffect req w (snd (handler (route req) (now req) (salt req) user w)).
Proof.
  destruct (route req) as [u p | c n | r n f | | | l d | l s d] eqn:R; simpl.
  - unfold post_api_login, User_findOne.
    destruct (find _ (users w)) as [x |]; [destruct (negb _) |]; untouched.
  - unfold post_api_change_password, User_findOne.
    destruct (find _ (users w)) as [x |]; [destruct (negb _) |]; untouched.
  - destruct (upload_array_cases 2 f (post_api_students r n) w)
      as [(fs & _ & _ & E) | [_ E]]; rewrite E; [untouched |].
    unfold post_api_students, Student_findOne, new_Student.
    destruct r as [r |], n as [n |]; try untouched.
    destruct (negb (truthy (Some r)) || negb (truthy (Some n))); [untouched |].
    destruct f as [fs |]; [| untouched].
    destruct (negb (Nat.eqb (List.length fs) 2)); [untouched |].
    destruct (find _ (students w)); untouched.
  - untouched.
  - unfold get_api_lectures, Lecture_find, Lecture_insertMany.
    destruct (Nat.eqb (List.length (lectures w)) 0); untouched.
  - destruct (get_api_attendance_sameStore l d (now req) w) as (_ & _ & _ & A & I).
    apply Untouched; [exact A | rewrite I; lia].
  - destruct l as [l |], s as [s |]; try untouched.
    destruct (dayWindow (requestDate d (now req))) as [[s0 |] [e0 |]] eqn:W;
      try (unfold post_api_attendance_mark; rewrite W; untouched).
    rewrite (post_api_attendance_mark_valid _ _ _ _ _ _ _ W).
    destruct (find (inWindow l s0 e0) (attendances w)) as [a |] eqn:F; cbv zeta.
    + destruct (includes s (Attendance.studentsPresent a)) eqn:I.
      * untouched.
      * eapply Added; eauto.
    + eapply Created; eauto.
Qed.

Lemma app_effect (req : Request) (w : World) : LedgerEffect req w (snd (app req w)).
Proof.
  pose proof (handler_effect req) as H.
  unfold app. destruct (route req) eqn:R;
    try (unfold authenticateToken;
         destruct (negb (truthy (bearerToken (authorization req)))); [untouched |];
         destruct (bearerToken (authorization req)) as [tok |]; [| untouched];
         destruct (jwt_verify tok JWT_SECRET (now req)) as [err | user];
         [untouched | apply (H user w)]).
  apply (H "" w).
Qed.

Lemma in_replaceById (d' : Attendance.t) (l : list Attendance.t) (x : Attendance.t) :
  In x (replaceById Attendance._id d' l) -> x = d' \/ In x l.
Proof.
  unfold replaceById. intros H. apply in_map_iff in H. destruct H as (y & E & Hy).
  destruct (N.eqb (Attendance._id y) (Attendance._id d')); subst; auto.
Qed.

Lemma inWindow_true (lectureId : ObjectId) (s e : Z) (a : Attendance.t) :
  inWindow lectureId s e a = true ->
  Attendance.lecture a = lectureId /\
  exists d, Attendance.date a = Some d /\ s <= d <= e.
Proof.
  unfold inWindow. intros H. apply andb_true_iff in H. destruct H as [L D].
  apply N.eqb_eq in L. split; [exact L |].
  destruct (Attendance.date a) as [d |]; [| discriminate].
  apply andb_true_iff in D. destruct D as [D1 D2].
  exists d. split; [reflexivity | lia].
Qed.

Lemma effect_keeps_ok (req : Request) (w w' : World) :
  ledger_ok w -> LedgerEffect req w w' -> ledger_ok w'.
Proof.
  intros (ND & LT & MID & NK) [A I | l st d s e R W F A I | l st d s e a R W F Inc A I].
  - unfold ledger_ok. rewrite A. repeat split; auto.
    intros a Ha. specialize (LT a Ha). lia.
  - destruct (requestDate d (now req)) as [t |] eqn:D; [| discriminate W].
    destruct (dayWindow_valid _ _ _ W) as (M & B & ->).
    unfold ledger_ok. rewrite A, I. rewrite !map_app. simpl. repeat split.
    + apply NoDup_snoc; [exact ND |].
      intros Hin. apply in_map_iff in Hin. destruct Hin as (x & E & Hx).
      specialize (LT x Hx). lia.
    + intros x Hx. apply in_app_or in Hx. destruct Hx as [Hx | [<- | []]].
      * specialize (LT x Hx). lia.
      * simpl. lia.
    + intros x Hx. apply in_app_or in Hx. destruct Hx as [Hx | [<- | []]].
      * apply MID, Hx.
      * exists s. split; [reflexivity | exact M].
    + apply NoDup_snoc; [exact NK |].
      intros Hin. apply in_map_iff in Hin. destruct Hin as (x & E & Hx).
      pose proof (proj1 (find_none_iff _ _) F x Hx) as Fx.
      unfold dayKey in E. injection E as EL ED.
      unfold inWindow in Fx. rewrite EL, ED, N.eqb_refl in Fx. simpl in Fx.
      apply andb_false_iff in Fx. destruct Fx as [Fx | Fx]; apply Z.leb_gt in Fx; lia.
  - pose proof (find_some _ _ F) as [Ha Pa].
    assert (Mid : map Attendance._id (attendances w') = map Attendance._id (attendances w)).
    { rewrite A. apply replaceById_map with (d := a); auto. }
    assert (Mk : map dayKey (attendances w') = map dayKey (attendances w)).
    { rewrite A. apply replaceById_map with (d := a); auto. }
    unfold ledger_ok. rewrite Mid, Mk, I. repeat split; auto.
    + intros x Hx. rewrite A in Hx. apply in_replaceById in Hx.
      destruct Hx as [-> | Hx]; [apply (LT a Ha) | apply LT, Hx].
    + intros x Hx. rewrite A in Hx. apply in_replaceById in Hx.
      destruct Hx as [-> | Hx]; [apply (MID a Ha) | apply MID, Hx].
Qed.





Lemma serve_app (reqs1 reqs2 : list Request) (w : World) :
  serve (reqs1 ++ reqs2) w = serve reqs2 (serve reqs1 w).
Proof.
  revert w. induction reqs1 as [| r rs IH]; intros w; simpl; [reflexivity | apply IH].
Qed.

Lemma serve_keeps_ok (reqs : list Request) (w : World) :
  ledger_ok w -> ledger_ok (serve reqs w).
Proof.
  revert w. induction reqs as [| r rs IH]; intros w H; simpl; [exact H |].
  apply IH. eapply effect_keeps_ok; [exact H | apply app_effect].
Qed.


Lemma emptyWorld_ok : ledger_ok emptyWorld.
Proof.
  unfold ledger_ok. simpl. repeat split; try constructor; intros a [].
Qed.


End Reachable.

(** ** Marking and querying *)

Section Marking.
Context {P : Platform}.

(** C10: a mark that finds the day's record and adds a student to it
    rewrites that record alone, in its place, with the same [_id], lecture
    and date and the student appended; every other record, and every other
    collection, is as before. *)
Theorem mark_existing_record_frame (lectureId studentId : ObjectId)
        (date : option string) (now : Z) (w : World) (s e : Z) (a : Attendance.t) :
  NoDup (map Attendance._id (attendances w)) ->
  dayWindow (requestDate date now) = (Some s, Some e) ->
  find (inWindow lectureId s e) (attendances w) = Some a ->
  includes studentId (Attendance.studentsPresent a) = false ->
  let w' := snd (post_api_attendance_mark (Some lectureId) (Some studentId) date now w) in
  List.length (attendances w') = List.length (attendances w)
  /\ (forall i b, nth_error (attendances w) i = Some b ->
        (b = a ->
         nth_error (attendances w') i
         = Some (Attendance.mk (Attendance._id a) (Attendance.lecture a) (Attendance.date a)
                               (Attendance.studentsPresent a ++ [studentId])))
        /\ (b <> a -> nth_error (attendances w') i = Some b))
  /\ users w' = users w /\ students w' = students w /\ lectures w' = lectures w
  /\ nextId w' = nextId w.
Proof.
  intros ND W F Inc. cbv zeta.
  rewrite (post_api_attendance_mark_valid _ _ _ _ _ _ _ W). cbv zeta.
  rewrite F, Inc. simpl.
  pose proof (find_some _ _ F) as [Ha _].
  split; [apply replaceById_length |].
  split; [| repeat split].
  intros i b Hb.
  destruct (replaceById_nth Attendance._id a (push studentId a) _ i b Ha ND eq_refl Hb)
    as [N1 N2].
  split.
  - intros ->. rewrite N1, N.eqb_refl. reflexivity.
  - intros NE. rewrite N1.
    destruct (N.eqb (Attendance._id b) (Attendance._id a)) eqn:E; [| reflexivity].
    exfalso. apply NE, N2. reflexivity.
Qed.


End Marking.

(** ** The roster, the identities and the gate *)

Section Roster.
Context {P : Platform}.

Lemma find_none_filter {A : Type} (p : A -> bool) (l : list A) :
  find p l = None <-> filter p l = [].
Proof.
  induction l as [| x l IH]; simpl; [tauto |].
  destruct (p x); [split; discriminate | exact IH].
Qed.

(** C5: on a store without lectures the handler inserts the five literal
    lectures and returns them; asked again, it returns the same five
    documents and inserts nothing; on a store that has lectures it only
    reads them. *)
Theorem lectures_seeded_once (w : World) :
  (lectures w = [] ->
   exists seeded w1 w2,
     get_api_lectures w = (Responded (mkResponse 200 (LecturesJson seeded)), w1)
     /\ map lectureRow seeded
        = [ ("Discrete Mathematics", "CS2005", "2FA");
            ("Computer Organisation", "BSCS100", "2AA");
            ("DBMS", "BCO1005", "2CA");
            ("English", "BELH 0081", "2XX");
            ("HTML", "PCPH0001", "2XN") ]
     /\ lectures w1 = seeded
     /\ get_api_lectures w1 = (Responded (mkResponse 200 (LecturesJson seeded)), w2)
     /\ lectures w2 = seeded
     /\ trace w2 = trace w ++ [Lecture_find_op; Lecture_insertMany_op 5; Lecture_find_op])
  /\ (lectures w <> [] ->
      get_api_lectures w
      = (Responded (mkResponse 200 (LecturesJson (lectures w))), logOp Lecture_find_op w)).
Proof.
  split.
  - intros E.
    exists (assignIds seedLectures (nextId w)).
    exists (snd (Lecture_insertMany seedLectures (logOp Lecture_find_op w))).
    exists (logOp Lecture_find_op
                  (snd (Lecture_insertMany seedLectures (logOp Lecture_find_op w)))).
    split; [unfold get_api_lectures, Lecture_find; rewrite E; reflexivity |].
    split; [reflexivity |].
    split; [simpl; rewrite E; reflexivity |].
    split; [unfold get_api_lectures, Lecture_find; simpl; rewrite E; reflexivity |].
    split; [simpl; rewrite E; reflexivity |].
    simpl. rewrite <- !app_assoc. reflexivity.
  - intros NE. unfold get_api_lectures, Lecture_find.
    destruct (lectures w) as [| l ls]; [contradiction | reflexivity].
Qed.

(** The registration handler by itself, on whatever [req.body] and
    [req.files] it is called with: it refuses with status 400 and an
    untouched world when the roll number or the name is missing or empty
    and, these given, when the files are not exactly two; it refuses with
    status 400 and an unchanged store, which still holds that roll number
    once, when the roll number is taken; otherwise the new student, with
    the roll number, the name and the two photo paths, is appended to the
    store and returned. *)
Lemma register_student_cases (rollNo name : option string)
        (files : option (list File)) (w : World) :
  ((truthy rollNo = false \/ truthy name = false) ->
   post_api_students rollNo name files w
   = (Responded (mkResponse 400 (Message "Roll No and Name are required")), w))
  /\ (truthy rollNo = true -> truthy name = true ->
      match files with Some fs => List.length fs <> 2%nat | None => True end ->
      post_api_students rollNo name files w
      = (Responded (mkResponse 400 (Message "Two photos required")), w))
  /\ (forall r n fs,
         rollNo = Some r -> name = Some n -> files = Some fs ->
         truthy rollNo = true -> truthy name = true -> List.length fs = 2%nat ->
         ((rollCount r (students w) <> 0)%nat ->
          exists w',
            post_api_students rollNo name files w
            = (Responded (mkResponse 400 (Message "Student with this roll no already exists")),
               w')
            /\ sameStore w w'
            /\ (NoDup (map Student.rollNo (students w)) ->
                rollCount r (students w') = 1%nat))
         /\ (rollCount r (students w) = 0%nat ->
             exists student w',
               post_api_students rollNo name files w
               = (Responded (mkResponse 200 (RegisteredJson "Student registered" student)), w')
               /\ student
                  = Student.mk (nextId w) r n
                               (map (fun f => ("/uploads/students/" ++ filename f)%string) fs)
               /\ List.length (Student.photos student) = 2%nat
               /\ students w' = students w ++ [student]
               /\ rollCount r (students w') = 1%nat
               /\ users w' = users w /\ lectures w' = lectures w
               /\ attendances w' = attendances w)).
Proof.
  split; [| split].
  - intros H. unfold post_api_students.
    destruct rollNo as [r |], name as [n |]; try reflexivity.
    destruct H as [H | H]; rewrite H; simpl; [reflexivity |].
    now rewrite orb_true_r.
  - intros Hr Hn Hf. unfold post_api_students.
    destruct rollNo as [r |]; [| discriminate Hr].
    destruct name as [n |]; [| discriminate Hn].
    rewrite Hr, Hn. simpl.
    destruct files as [fs |]; [| reflexivity].
    destruct (Nat.eqb_spec (List.length fs) 2); [contradiction | reflexivity].
  - intros r n fs -> -> -> Hr Hn Len. unfold post_api_students.
    rewrite Hr, Hn, Len. simpl. unfold Student_findOne, rollCount.
    split.
    + intros C.
      destruct (find (fun s => String.eqb (Student.rollNo s) r) (students w)) as [st |] eqn:F.
      * eexists. split; [reflexivity |]. split; [repeat split |].
        intros ND. simpl.
        assert (Le : (List.length (filter (fun s => String.eqb (Student.rollNo s) r)
                                          (students w)) <= 1)%nat).
        { apply filter_at_most_one with (f := Student.rollNo) (k := r); [exact ND |].
          intros x _ Px. now apply String.eqb_eq in Px. }
        lia.
      * exfalso. apply C. apply find_none_filter in F. now rewrite F.
    + intros C.
      destruct (find (fun s => String.eqb (Student.rollNo s) r) (students w)) as [st |] eqn:F.
      * exfalso. apply find_some in F. destruct F as [Hin Pst].
        assert (Hf : In st (filter (fun s => String.eqb (Student.rollNo s) r) (students w)))
          by (apply filter_In; auto).
        destruct (filter _ (students w)); [contradiction | discriminate C].
      * simpl. do 2 eexists. split; [reflexivity |]. split; [reflexivity |].
        split; [simpl; rewrite length_map; exact Len |].
        split; [reflexivity |].
        split; [| repeat split].
        simpl. rewrite filter_app, length_app. simpl. rewrite String.eqb_refl. simpl.
        lia.
Qed.

(** C8: a password change answers 404 "User not found" when the identity
    of the token is not stored, and 400 "Current password incorrect" when
    the current password does not verify against the stored hash; in both
    cases the store is as before.  Otherwise it answers 200 and the
    identity is stored with the hash newly computed from the new password,
    in the same place, all other users being as before. *)
Theorem change_password_cases (req_user currentPassword newPassword : string)
        (salt : Salt) (w : World) :
  (find (fun u => String.eqb (User.username u) req_user) (users w) = None ->
   exists w',
     post_api_change_password req_user currentPassword newPassword salt w
     = (Responded (mkResponse 404 (Message "User not found")), w')
     /\ sameStore w w')
  /\ (forall u,
         find (fun u => String.eqb (User.username u) req_user) (users w) = Some u ->
         (bcrypt_compare currentPassword (User.passwordHash u) = false ->
          exists w',
            post_api_change_password req_user currentPassword newPassword salt w
            = (Responded (mkResponse 400 (Message "Current password incorrect")), w')
            /\ sameStore w w')
         /\ (bcrypt_compare currentPassword (User.passwordHash u) = true ->
             exists w',
               post_api_change_password req_user currentPassword newPassword salt w
               = (Responded (mkResponse 200 (Message "Password changed successfully")), w')
               /\ find (fun u => String.eqb (User.username u) req_user) (users w')
                  = Some (User.mk (User._id u) (User.username u)
                                  (bcrypt_hash newPassword salt))
               /\ List.length (users w') = List.length (users w)
               /\ (NoDup (map User._id (users w)) ->
                   forall i x, nth_error (users w) i = Some x ->
                               nth_error (users w') i
                               = Some (if N.eqb (User._id x) (User._id u)
                                       then User.mk (User._id u) (User.username u)
                                                    (bcrypt_hash newPassword salt)
                                       else x))
               /\ students w' = students w /\ lectures w' = lectures w
               /\ attendances w' = attendances w /\ nextId w' = nextId w)).
Proof.
  split.
  - intros F. unfold post_api_change_password, User_findOne. rewrite F.
    eexists. split; [reflexivity | repeat split].
  - intros u F. unfold post_api_change_password, User_findOne. rewrite F.
    split; intros V; rewrite V; simpl.
    + eexists. split; [reflexivity | repeat split].
    + eexists. split; [reflexivity |].
      pose proof (find_some _ _ F) as [Hu Pu].
      split.
      { simpl. apply find_replaceById with (d := u); [exact F | reflexivity | exact Pu]. }
      split; [simpl; apply replaceById_length |].
      split; [| repeat split].
      intros ND i x Hx. simpl.
      destruct (replaceById_nth User._id u
                  (set_passwordHash (bcrypt_hash newPassword salt) u) _ i x Hu ND eq_refl Hx)
        as [N1 _].
      exact N1.
Qed.

(** C6, as the code has it: behind the gate, a request without a token (no
    header, or a header with no second field) is answered 401, and a
    request whose token fails verification, whatever the reason
    (malformed, wrong signature, expired), is answered 403; in both cases
    the world, trace of store operations included, is the one before the
    request, whatever the route. *)
Theorem access_gate_failures (req : Request) (w : World) :
  is_gated (route req) = true ->
  (truthy (bearerToken (authorization req)) = false ->
   app req w = (Responded (mkResponse 401 StatusText), w))
  /\ (forall tok err,
         bearerToken (authorization req) = Some tok -> tok <> "" ->
         jwt_verify tok JWT_SECRET (now req) = JwtErr err ->
         app req w = (Responded (mkResponse 403 StatusText), w)).
Proof.
  intros G.
  assert (A : app req w
              = authenticateToken (authorization req) (now req)
                                  (handler (route req) (now req) (salt req)) w).
  { unfold app. destruct (route req); try reflexivity. discriminate G. }
  rewrite A. unfold authenticateToken. split.
  - intros T. rewrite T. reflexivity.
  - intros tok err B NE V. rewrite B. simpl.
    destruct (String.eqb_spec tok ""); [contradiction |]. simpl.
    rewrite V. reflexivity.
Qed.

End Roster.

(** * The properties at work on the demo platform *)

Example split_bearer : split " "%char "Bearer abc.def.ghi" = ["Bearer"; "abc.def.ghi"].
Proof. reflexivity. Qed.

Example split_no_token : bearerToken (Some "Bearer ") = Some "".
Proof. reflexivity. Qed.

Example window_of_1_march :
  @dayWindow demoPlatform (Some 1709287200000) = (Some 1709231400000, Some 1709317799999).
Proof. reflexivity. Qed.

Example window_at_the_first_day :
  @dayWindow demoPlatform (Some (- maxTimeValue)) = (None, None).
Proof. reflexivity. Qed.

Lemma query_without_record_witness :
  @dayWindow demoPlatform (@requestDate demoPlatform (Some "2024-03-01") 0)
  = (Some 1709231400000, Some 1709317799999)
  /\ (forall a, In a (attendances demoRoster) ->
                inWindow 5%N 1709231400000 1709317799999 a = false)
  /\ fst (@get_api_attendance demoPlatform 5%N (Some "2024-03-01") 0 demoRoster)
     = Responded (mkResponse 200
                    (AttendanceJson (mkView None 5%N (Some 1709231400000) []))).
Proof.
  split; [reflexivity |]. split; [intros a [] |].
  apply (@query_without_record demoPlatform 5%N (Some "2024-03-01") 0 demoRoster
                               1709231400000 1709317799999).
  - reflexivity.
  - intros a [].
Defined.

Lemma unparseable_date_is_invalid_witness :
  "next tuesday" <> ""
  /\ @Date_parse demoPlatform "next tuesday" = None
  /\ @requestDate demoPlatform (Some "next tuesday") 1709287200000 = None
  /\ @get_api_attendance demoPlatform 5%N (Some "next tuesday") 1709287200000 demoLedger
     = (Rejected (CastError "date"), demoLedger).
Proof.
  assert (NE : "next tuesday" <> "") by discriminate.
  split; [exact NE |]. split; [reflexivity |].
  pose proof (@unparseable_date_is_invalid demoPlatform "next tuesday" 1709287200000
                5%N 0%N demoLedger NE eq_refl) as (_ & _ & D & _ & Q & _).
  split; [exact D | exact Q].
Defined.

(** C4 as stated fails: with the clock at 10:00 UTC on 1 March 2024, a
    query and a mark whose date is a text that does not parse are rejected,
    while the same requests without a date are answered for 1 March. *)
Lemma unparseable_date_is_not_now :
  @Date_parse demoPlatform "next tuesday" = None
  /\ @get_api_attendance demoPlatform 5%N (Some "next tuesday") 1709287200000 demoLedger
     = (Rejected (CastError "date"), demoLedger)
  /\ fst (@get_api_attendance demoPlatform 5%N None 1709287200000 demoLedger)
     = Responded (mkResponse 200
                    (AttendanceJson
                       (mkView (Some 1%N) 5%N (Some 1709231400000)
                               [Student.mk 0%N "R1" "Asha"
                                           ["/uploads/students/photos-1.jpg";
                                            "/uploads/students/photos-2.jpg"]])))
  /\ @get_api_attendance demoPlatform 5%N (Some "next tuesday") 1709287200000 demoLedger
     <> @get_api_attendance demoPlatform 5%N None 1709287200000 demoLedger
  /\ @post_api_attendance_mark demoPlatform (Some 5%N) (Some 0%N) (Some "next tuesday")
                               1709287200000 demoLedger
     = (Rejected (CastError "date"), demoLedger)
  /\ fst (@post_api_attendance_mark demoPlatform (Some 5%N) (Some 0%N) None
                                    1709287200000 demoLedger)
     = Responded (mkResponse 400 (Message "Student already marked present")).
Proof.
  repeat split; try reflexivity. discriminate.
Qed.

Lemma mark_existing_record_frame_witness :
  NoDup (map Attendance._id (attendances demoLedger))
  /\ find (inWindow 5%N 1709231400000 1709317799999) (attendances demoLedger)
     = Some (Attendance.mk 1%N 5%N (Some 1709231400000) [0%N])
  /\ includes 9%N [0%N] = false
  /\ nth_error
       (attendances
          (snd (@post_api_attendance_mark demoPlatform (Some 5%N) (Some 9%N) None
                                          1709287200000 demoLedger))) 0
     = Some (Attendance.mk 1%N 5%N (Some 1709231400000) [0%N; 9%N]).
Proof.
  assert (ND : NoDup (map Attendance._id (attendances demoLedger))).
  { simpl. constructor; [intros [] | constructor]. }
  split; [exact ND |]. split; [reflexivity |]. split; [reflexivity |].
  pose proof (@mark_existing_record_frame demoPlatform 5%N 9%N None 1709287200000
                demoLedger 1709231400000 1709317799999
                (Attendance.mk 1%N 5%N (Some 1709231400000) [0%N])
                ND eq_refl eq_refl eq_refl) as (_ & Frame & _).
  exact (proj1 (Frame 0%nat _ eq_refl) eq_refl).
Defined.


Lemma lectures_seeded_once_witness :
  lectures emptyWorld = []
  /\ lectures demoRoster = []
  /\ exists seeded w1 w2,
      get_api_lectures demoRoster
      = (Responded (mkResponse 200 (LecturesJson seeded)), w1)
      /\ map lectureRow seeded
         = [ ("Discrete Mathematics", "CS2005", "2FA");
             ("Computer Organisation", "BSCS100", "2AA");
             ("DBMS", "BCO1005", "2CA");
             ("English", "BELH 0081", "2XX");
             ("HTML", "PCPH0001", "2XN") ]
      /\ lectures w1 = seeded
      /\ get_api_lectures w1
         = (Responded (mkResponse 200 (LecturesJson seeded)), w2)
      /\ lectures w2 = seeded
      /\ trace w2
         = trace demoRoster ++ [Lecture_find_op; Lecture_insertMany_op 5; Lecture_find_op].
Proof.
  split; [reflexivity |]. split; [reflexivity |].
  apply (proj1 (lectures_seeded_once demoRoster)). reflexivity.
Defined.

Lemma change_password_cases_witness :
  (exists w',
      @post_api_change_password demoPlatform "Nobody" "12345" "s3cret" 1%N demoUsers
      = (Responded (mkResponse 404 (Message "User not found")), w')
      /\ sameStore demoUsers w')
  /\ (exists w',
         @post_api_change_password demoPlatform "Akash" "54321" "s3cret" 1%N demoUsers
         = (Responded (mkResponse 400 (Message "Current password incorrect")), w')
         /\ sameStore demoUsers w')
  /\ (exists w',
         @post_api_change_password demoPlatform "Akash" "12345" "s3cret" 1%N demoUsers
         = (Responded (mkResponse 200 (Message "Password changed successfully")), w')
         /\ find (fun u => String.eqb (User.username u) "Akash") (users w')
            = Some (User.mk 0%N "Akash" "$2a$10$s3cret")).
Proof.
  split.
  { apply (proj1 (@change_password_cases demoPlatform "Nobody" "12345" "s3cret" 1%N demoUsers)).
    reflexivity. }
  split.
  { apply (proj1 (proj2 (@change_password_cases demoPlatform "Akash" "54321" "s3cret" 1%N
                           demoUsers)
                        (User.mk 0%N "Akash" "$2a$10$12345") eq_refl)).
    reflexivity. }
  destruct (proj2 (proj2 (@change_password_cases demoPlatform "Akash" "12345" "s3cret" 1%N
                            demoUsers)
                         (User.mk 0%N "Akash" "$2a$10$12345") eq_refl) eq_refl)
    as (w' & R & F & _).
  exists w'. split; [exact R | exact F].
Defined.

Lemma access_gate_failures_witness :
  is_gated GET_students = true
  /\ @app demoPlatform (gatedRequest None GET_students) demoRoster
     = (Responded (mkResponse 401 StatusText), demoRoster)
  /\ @app demoPlatform (gatedRequest (Some "Bearer") GET_students) demoRoster
     = (Responded (mkResponse 401 StatusText), demoRoster)
  /\ @app demoPlatform (gatedRequest (Some "Bearer akash.session.old") GET_students)
          demoRoster
     = (Responded (mkResponse 403 StatusText), demoRoster).
Proof.
  split; [reflexivity |].
  split.
  { apply (proj1 (@access_gate_failures demoPlatform (gatedRequest None GET_students)
                    demoRoster eq_refl)).
    reflexivity. }
  split.
  { apply (proj1 (@access_gate_failures demoPlatform
                    (gatedRequest (Some "Bearer") GET_students) demoRoster eq_refl)).
    reflexivity. }
  apply (proj2 (@access_gate_failures demoPlatform
                  (gatedRequest (Some "Bearer akash.session.old") GET_students)
                  demoRoster eq_refl)
               "akash.session.old" TokenExpired eq_refl);
    [discriminate | reflexivity].
Defined.

(** C6 as stated fails: a token that is not a token at all, and one with a
    forged signature, are answered 403 exactly like an expired one, not
    401; with a valid token the same request is served. *)
Lemma bad_token_is_answered_403 :
  @jwt_verify demoPlatform "garbage" JWT_SECRET 1709287200000 = JwtErr JwtMalformed
  /\ @app demoPlatform (gatedRequest (Some "Bearer garbage") GET_students) demoRoster
     = (Responded (mkResponse 403 StatusText), demoRoster)
  /\ @jwt_verify demoPlatform "akash.session.forged" JWT_SECRET 1709287200000
     = JwtErr JwtInvalidSignature
  /\ @app demoPlatform (gatedRequest (Some "Bearer akash.session.forged") GET_students)
          demoRoster
     = (Responded (mkResponse 403 StatusText), demoRoster)
  /\ @app demoPlatform (gatedRequest (Some "Bearer akash.session.old") GET_students)
          demoRoster
     = (Responded (mkResponse 403 StatusText), demoRoster)
  /\ fst (@app demoPlatform (gatedRequest (Some "Bearer garbage") GET_students) demoRoster)
     <> Responded (mkResponse 401 StatusText)
  /\ fst (@app demoPlatform (gatedRequest (Some "Bearer akash.session.valid") GET_students)
               demoRoster)
     = Responded (mkResponse 200 (StudentsJson (students demoRoster))).
Proof.
  repeat split; try reflexivity. discriminate.
Qed.

(** * Further properties of the server *)

(** ** The Authorization header and the gate *)

Section Header.
Context {P : Platform}.

Lemma split_noSpace (a : string) : noSpace a = true -> split " "%char a = [a].
Proof.
  induction a as [| c a IH]; simpl; [reflexivity |].
  intros H. apply andb_true_iff in H. destruct H as [C N].
  destruct (Ascii.eqb c " "%char); [discriminate C |].
  rewrite (IH N). reflexivity.
Qed.

Lemma split_field (a rest : string) :
  noSpace a = true ->
  split " "%char (a ++ String " "%char rest)%string = a :: split " "%char rest.
Proof.
  induction a as [| c a IH]; simpl; [reflexivity |].
  intros H. apply andb_true_iff in H. destruct H as [C N].
  destruct (Ascii.eqb c " "%char); [discriminate C |].
  rewrite (IH N). reflexivity.
Qed.

Lemma truthy_field (a rest : string) :
  truthy (Some (a ++ String " "%char rest)%string) = true.
Proof. destruct a; reflexivity. Qed.

(** X4: the token is the second space-separated field of the header,
    whatever the first field is and whatever follows a second space; a
    header without a space carries no token. *)
Theorem authorization_second_field (scheme tok : string) :
  noSpace scheme = true ->
  noSpace tok = true ->
  bearerToken (Some (scheme ++ " " ++ tok)%string) = Some tok
  /\ (forall rest, bearerToken (Some (scheme ++ " " ++ tok ++ " " ++ rest)%string) = Some tok)
  /\ truthy (bearerToken (Some scheme)) = false.
Proof.
  intros S T. split; [| split].
  - unfold bearerToken. simpl String.append. rewrite truthy_field, (split_field _ _ S).
    rewrite (split_noSpace _ T). reflexivity.
  - intros rest. unfold bearerToken. simpl String.append.
    rewrite truthy_field, (split_field _ _ S), (split_field _ _ T). reflexivity.
  - unfold bearerToken. destruct (truthy (Some scheme)) eqn:E; [| exact E].
    rewrite (split_noSpace _ S). reflexivity.
Qed.

Lemma app_passes_token (scheme tok user : string) (r : Route)
      (now : Z) (salt : Salt) (w : World) :
  is_gated r = true -> noSpace scheme = true -> noSpace tok = true -> tok <> "" ->
  jwt_verify tok JWT_SECRET now = JwtUser user ->
  app (mkRequest (Some (scheme ++ " " ++ tok)%string) r now salt) w
  = handler r now salt user w.
Proof.
  intros G S T NE V.
  assert (A : app (mkRequest (Some (scheme ++ " " ++ tok)%string) r now salt) w
              = authenticateToken (Some (scheme ++ " " ++ tok)%string) now
                                  (handler r now salt) w).
  { unfold app. simpl. destruct r; try reflexivity. discriminate G. }
  rewrite A. unfold authenticateToken.
  unfold bearerToken. simpl String.append.
  rewrite truthy_field, (split_field _ _ S), (split_noSpace _ T). simpl.
  destruct (String.eqb_spec tok ""); [contradiction |]. simpl.
  rewrite V. reflexivity.
Qed.

(** X5: a request on a gated route whose header is any word, a space and a
    token that verifies is served by the handler of its route, for the
    user named in the token, on the world as it was; the word before the
    token is not looked at.  The same token alone, with no word before
    it, is turned away with 401. *)
Theorem gate_passes_verified_token (scheme tok user : string) (r : Route)
        (now : Z) (salt : Salt) (w : World) :
  is_gated r = true ->
  noSpace scheme = true ->
  noSpace tok = true ->
  tok <> "" ->
  jwt_verify tok JWT_SECRET now = JwtUser user ->
  app (mkRequest (Some (scheme ++ " " ++ tok)%string) r now salt) w
  = handler r now salt user w
  /\ app (mkRequest (Some tok) r now salt) w
     = (Responded (mkResponse 401 StatusText), w).
Proof.
  intros G S T NE V. split; [apply app_passes_token; assumption |].
  assert (A : app (mkRequest (Some tok) r now salt) w
              = authenticateToken (Some tok) now (handler r now salt) w).
  { unfold app. simpl. destruct r; try reflexivity. discriminate G. }
  rewrite A. unfold authenticateToken, bearerToken.
  destruct (truthy (Some tok)) eqn:E.
  - rewrite (split_noSpace _ T). reflexivity.
  - rewrite E. reflexivity.
Qed.

(** X1: a login never changes the store and does not look at the
    Authorization header; it answers either with the one message
    "Invalid username or password", be the user unknown or the password
    wrong, or, the user being stored and the password verifying against
    the stored hash, with a token signed for that user. *)
Theorem login_outcomes (username password : string) (auth : option string)
        (now : Z) (salt : Salt) (w : World) :
  app (mkRequest auth (POST_login username password) now salt) w
  = post_api_login username password now w
  /\ sameStore w (snd (post_api_login username password now w))
  /\ ((fst (post_api_login username password now w)
       = Responded (mkResponse 400 (Message "Invalid username or password"))
       /\ forall u, find (byUsername username) (users w) = Some u ->
                    bcrypt_compare password (User.passwordHash u) = false)
      \/ (exists u, find (byUsername username) (users w) = Some u
                    /\ bcrypt_compare password (User.passwordHash u) = true
                    /\ fst (post_api_login username password now w)
                       = Responded (mkResponse 200
                                      (TokenJson (jwt_sign username JWT_SECRET now))))).
Proof.
  split; [reflexivity |].
  unfold post_api_login, User_findOne, byUsername.
  destruct (find (fun u => String.eqb (User.username u) username) (users w)) as [u |] eqn:F.
  - destruct (bcrypt_compare password (User.passwordHash u)) eqn:V; simpl.
    + split; [repeat split |]. right. exists u.
      split; [reflexivity |]. split; [exact V |].
      apply find_some in F. destruct F as [_ E]. apply String.eqb_eq in E.
      rewrite E. reflexivity.
    + split; [repeat split |]. left. split; [reflexivity |].
      intros u' E. injection E as <-. exact V.
  - simpl. split; [repeat split |]. left. split; [reflexivity |].
    intros u' E. discriminate E.
Qed.

End Header.

(** ** Identities and sessions *)

Section Sessions.
Context {P : Platform}.

Lemma sameStore_refl (w : World) : sameStore w w.
Proof. repeat split. Qed.

Lemma app_gated_cases (req : Request) (w : World) :
  is_gated (route req) = true ->
  app req w = (sendStatus 401, w)
  \/ app req w = (sendStatus 403, w)
  \/ exists tok user,
      bearerToken (authorization req) = Some tok /\ tok <> ""
      /\ jwt_verify tok JWT_SECRET (now req) = JwtUser user
      /\ app req w = handler (route req) (now req) (salt req) user w.
Proof.
  intros G.
  assert (A : app req w
              = authenticateToken (authorization req) (now req)
                                  (handler (route req) (now req) (salt req)) w).
  { unfold app. destruct (route req); try reflexivity. discriminate G. }
  rewrite A. unfold authenticateToken.
  destruct (bearerToken (authorization req)) as [tok |] eqn:B; simpl; [| now left].
  destruct (String.eqb_spec tok "") as [E | NE]; simpl; [now left |].
  destruct (jwt_verify tok JWT_SECRET (now req)) as [err | user] eqn:V.
  - right. now left.
  - right. right. exists tok, user. auto.
Qed.

Lemma login_found (username password : string) (now : Z) (w : World) (u : User.t) :
  find (byUsername username) (users w) = Some u ->
  post_api_login username password now w
  = (if bcrypt_compare password (User.passwordHash u)
     then json (TokenJson (jwt_sign username JWT_SECRET now))
     else status_json 400 (Message "Invalid username or password"),
     logOp (User_findOne_op username) w).
Proof.
  intros F. unfold post_api_login, User_findOne. unfold byUsername in F. rewrite F.
  apply find_some in F. destruct F as [_ E]. apply String.eqb_eq in E. rewrite E.
  destruct (bcrypt_compare password (User.passwordHash u)); reflexivity.
Qed.

Lemma change_password_found (req_user currentPassword newPassword : string)
      (salt : Salt) (w : World) (u : User.t) :
  find (byUsername req_user) (users w) = Some u ->
  post_api_change_password req_user currentPassword newPassword salt w
  = if bcrypt_compare currentPassword (User.passwordHash u)
    then (json (Message "Password changed successfully"),
          User_save (set_passwordHash (bcrypt_hash newPassword salt) u)
                    (logOp (User_findOne_op req_user) w))
    else (status_json 400 (Message "Current password incorrect"),
          logOp (User_findOne_op req_user) w).
Proof.
  intros F. unfold post_api_change_password, User_findOne. unfold byUsername in F.
  rewrite F. destruct (bcrypt_compare currentPassword (User.passwordHash u)); reflexivity.
Qed.

(** X2: seeding the demo user makes sure that a user "Akash" is stored;
    it appends one, with the hash of "12345", only when there is none, and
    a second seeding, with whatever salt, changes nothing.  The other
    collections are not touched. *)
Theorem seed_demo_user_once (salt1 salt2 : Salt) (w : World) :
  (exists u, find (byUsername "Akash") (users (seedDemoUser salt1 w)) = Some u)
  /\ users (seedDemoUser salt2 (seedDemoUser salt1 w)) = users (seedDemoUser salt1 w)
  /\ (find (byUsername "Akash") (users w) = None ->
      users (seedDemoUser salt1 w)
      = users w ++ [User.mk (nextId w) "Akash" (bcrypt_hash "12345" salt1)])
  /\ (find (byUsername "Akash") (users w) <> None -> users (seedDemoUser salt1 w) = users w)
  /\ students (seedDemoUser salt1 w) = students w
  /\ lectures (seedDemoUser salt1 w) = lectures w
  /\ attendances (seedDemoUser salt1 w) = attendances w.
Proof.
  assert (Seeded : forall s w0,
             exists u, find (byUsername "Akash") (users (seedDemoUser s w0)) = Some u).
  { intros s w0. unfold seedDemoUser, User_findOne.
    destruct (find (fun u => String.eqb (User.username u) "Akash") (users w0))
      as [u |] eqn:F; simpl.
    - exists u. exact F.
    - eexists. unfold byUsername. rewrite (find_app_miss _ _ _ F). reflexivity. }
  assert (Kept : forall s w0, find (byUsername "Akash") (users w0) <> None ->
                              users (seedDemoUser s w0) = users w0).
  { intros s w0 H. unfold seedDemoUser, User_findOne. unfold byUsername in H.
    destruct (find (fun u => String.eqb (User.username u) "Akash") (users w0));
      [reflexivity | contradiction]. }
  split; [apply Seeded |].
  split.
  { apply Kept. destruct (Seeded salt1 w) as [u E]. rewrite E. discriminate. }
  split.
  { intros F. unfold seedDemoUser, User_findOne. unfold byUsername in F. rewrite F.
    reflexivity. }
  split; [apply Kept |].
  unfold seedDemoUser, User_findOne.
  destruct (find (fun u => String.eqb (User.username u) "Akash") (users w));
    repeat split.
Qed.

(** X3: on a store without a user "Akash", after the seeding a login as
    "Akash" with the password "12345" is answered with a token, provided
    that the hash library verifies a password against its own hash; any
    password that does not verify against that hash is refused. *)
Theorem seed_then_login (salt : Salt) (now : Z) (w : World) :
  find (byUsername "Akash") (users w) = None ->
  bcrypt_compare "12345" (bcrypt_hash "12345" salt) = true ->
  fst (post_api_login "Akash" "12345" now (seedDemoUser salt w))
  = Responded (mkResponse 200 (TokenJson (jwt_sign "Akash" JWT_SECRET now)))
  /\ forall password,
      bcrypt_compare password (bcrypt_hash "12345" salt) = false ->
      fst (post_api_login "Akash" password now (seedDemoUser salt w))
      = Responded (mkResponse 400 (Message "Invalid username or password")).
Proof.
  intros F V.
  assert (U : find (byUsername "Akash") (users (seedDemoUser salt w))
              = Some (User.mk (nextId w) "Akash" (bcrypt_hash "12345" salt))).
  { unfold seedDemoUser, User_findOne. unfold byUsername in *. rewrite F. simpl.
    rewrite (find_app_miss _ _ _ F). reflexivity. }
  split.
  - rewrite (login_found _ _ _ _ _ U). simpl. rewrite V. reflexivity.
  - intros password W. rewrite (login_found _ _ _ _ _ U). simpl. rewrite W. reflexivity.
Qed.

(** X6: a whole session.  A stored user logs in, presents the token that
    the login returned as "Bearer <token>" to change the password, and logs
    in again: the change is accepted, the new password then opens a
    session, and the old one no longer does when it does not verify
    against the new hash.  The token library is taken to verify, for the
    same user, the token it signed, and the hash library to verify a
    password against its own hash. *)
Theorem change_password_session (username password newPassword : string) (u : User.t)
        (t0 t1 t2 : Z) (salt : Salt) (w : World) :
  find (byUsername username) (users w) = Some u ->
  bcrypt_compare password (User.passwordHash u) = true ->
  noSpace (jwt_sign username JWT_SECRET t0) = true ->
  jwt_sign username JWT_SECRET t0 <> "" ->
  jwt_verify (jwt_sign username JWT_SECRET t0) JWT_SECRET t1 = JwtUser username ->
  bcrypt_compare newPassword (bcrypt_hash newPassword salt) = true ->
  exists w1 w2,
    post_api_login username password t0 w
    = (Responded (mkResponse 200 (TokenJson (jwt_sign username JWT_SECRET t0))), w1)
    /\ app (mkRequest (Some ("Bearer " ++ jwt_sign username JWT_SECRET t0)%string)
                      (POST_change_password password newPassword) t1 salt) w1
       = (Responded (mkResponse 200 (Message "Password changed successfully")), w2)
    /\ fst (post_api_login username newPassword t2 w2)
       = Responded (mkResponse 200 (TokenJson (jwt_sign username JWT_SECRET t2)))
    /\ (bcrypt_compare password (bcrypt_hash newPassword salt) = false ->
        fst (post_api_login username password t2 w2)
        = Responded (mkResponse 400 (Message "Invalid username or password"))).
Proof.
  intros F V S NE J H.
  exists (logOp (User_findOne_op username) w).
  exists (User_save (set_passwordHash (bcrypt_hash newPassword salt) u)
                    (logOp (User_findOne_op username)
                           (logOp (User_findOne_op username) w))).
  split; [rewrite (login_found _ _ _ _ _ F), V; reflexivity |].
  split.
  { etransitivity.
    - exact (app_passes_token "Bearer" (jwt_sign username JWT_SECRET t0) username
               (POST_change_password password newPassword) t1 salt
               (logOp (User_findOne_op username) w) eq_refl eq_refl S NE J).
    - unfold handler.
      rewrite (change_password_found username password newPassword salt
                 (logOp (User_findOne_op username) w) u F), V.
      reflexivity. }
  assert (U : find (byUsername username)
                   (users (User_save (set_passwordHash (bcrypt_hash newPassword salt) u)
                                     (logOp (User_findOne_op username)
                                            (logOp (User_findOne_op username) w))))
              = Some (set_passwordHash (bcrypt_hash newPassword salt) u)).
  { simpl. apply find_replaceById with (d := u); [exact F | reflexivity |].
    apply find_some in F. exact (proj2 F). }
  split.
  - rewrite (login_found _ _ _ _ _ U). simpl. rewrite H. reflexivity.
  - intros W. rewrite (login_found _ _ _ _ _ U). simpl. rewrite W. reflexivity.
Qed.

End Sessions.

(** ** What a request can change *)

Section Effects.
Context {P : Platform}.

Lemma app_cases (req : Request) (w : World) :
  app req w = (sendStatus 401, w)
  \/ app req w = (sendStatus 403, w)
  \/ (exists u p, route req = POST_login u p
                  /\ app req w = post_api_login u p (now req) w)
  \/ (is_gated (route req) = true
      /\ exists tok user,
          bearerToken (authorization req) = Some tok /\ tok <> ""
          /\ jwt_verify tok JWT_SECRET (now req) = JwtUser user
          /\ app req w = handler (route req) (now req) (salt req) user w).
Proof.
  destruct (is_gated (route req)) eqn:G.
  - destruct (app_gated_cases req w G) as [E | [E | E]];
      [now left | right; now left |].
    right. right. right. split; [reflexivity | exact E].
  - right. right. left. unfold app.
    destruct (route req) as [u p | | | | | |] eqn:R; try discriminate G.
    exists u, p. split; reflexivity.
Qed.

Lemma post_api_login_sameStore (u p : string) (now : Z) (w : World) :
  sameStore w (snd (post_api_login u p now w)).
Proof.
  unfold post_api_login, User_findOne.
  destruct (find _ (users w)) as [x |]; [destruct (negb _) |]; repeat split.
Qed.

Lemma post_api_students_valid (r n : string) (fs : list File) (w : World) :
  r <> "" -> n <> "" -> List.length fs = 2%nat ->
  post_api_students (Some r) (Some n) (Some fs) w
  = match find (byRollNo r) (students w) with
    | Some _ =>
        (status_json 400 (Message "Student with this roll no already exists"),
         logOp (Student_findOne_op r) w)
    | None =>
        let student := Student.mk (nextId w) r n (map photoPath fs) in
        (json (RegisteredJson "Student registered" student),
         Student_save true student (snd (allocId (logOp (Student_findOne_op r) w))))
    end.
Proof.
  intros R N L. unfold post_api_students, truthy.
  destruct (String.eqb_spec r ""); [contradiction |].
  destruct (String.eqb_spec n ""); [contradiction |].
  rewrite L. simpl. unfold Student_findOne, byRollNo.
  destruct (find (fun s => String.eqb (Student.rollNo s) r) (students w)); reflexivity.
Qed.

Lemma post_api_students_effect (rollNo name : option string) (files : option (list File))
      (w : World) :
  snd (post_api_students rollNo name files w) = w
  \/ sameStore w (snd (post_api_students rollNo name files w))
  \/ exists r n fs,
      rollNo = Some r /\ name = Some n /\ files = Some fs
      /\ r <> "" /\ n <> "" /\ List.length fs = 2%nat
      /\ find (byRollNo r) (students w) = None
      /\ students (snd (post_api_students rollNo name files w))
         = students w ++ [Student.mk (nextId w) r n (map photoPath fs)]
      /\ users (snd (post_api_students rollNo name files w)) = users w
      /\ lectures (snd (post_api_students rollNo name files w)) = lectures w
      /\ attendances (snd (post_api_students rollNo name files w)) = attendances w.
Proof.
  destruct rollNo as [r |]; [| now left].
  destruct name as [n |]; [| now left].
  destruct (String.eqb_spec r "") as [-> | R]; [now left |].
  destruct (String.eqb_spec n "") as [-> | N].
  { left. unfold post_api_students, truthy.
    destruct (String.eqb_spec r ""); [contradiction | reflexivity]. }
  destruct files as [fs |].
  2:{ left. unfold post_api_students, truthy.
      destruct (String.eqb_spec r ""); [contradiction |].
      destruct (String.eqb_spec n ""); [contradiction | reflexivity]. }
  destruct (Nat.eqb_spec (List.length fs) 2) as [L | L].
  2:{ left. unfold post_api_students, truthy.
      destruct (String.eqb_spec r ""); [contradiction |].
      destruct (String.eqb_spec n ""); [contradiction |]. simpl.
      destruct (Nat.eqb_spec (List.length fs) 2); [contradiction | reflexivity]. }
  rewrite (post_api_students_valid r n fs w R N L).
  destruct (find (byRollNo r) (students w)) eqn:F.
  - right. left. repeat split.
  - right. right. exists r, n, fs. repeat split; auto.
Qed.

Lemma handler_reads_only (r : Route) (now : Z) (salt : Salt) (user : string) (w : World) :
  writes r = false -> sameStore w (snd (handler r now salt user w)).
Proof.
  destruct r; simpl; intros W; try discriminate W.
  - apply post_api_login_sameStore.
  - repeat split.
  - apply get_api_attendance_sameStore.
Qed.

(** X10: whatever the request, either the store is afterwards as it was,
    or the request was for one of the four writing routes and carried a
    token that verified.  In particular a login, the list of students and
    an attendance query never write, and nothing is written for a request
    that the gate turns away. *)
Theorem store_changes_are_authenticated (req : Request) (w : World) :
  sameStore w (snd (app req w))
  \/ (writes (route req) = true
      /\ exists tok user,
          bearerToken (authorization req) = Some tok /\ tok <> ""
          /\ jwt_verify tok JWT_SECRET (now req) = JwtUser user).
Proof.
  destruct (app_cases req w)
    as [E | [E | [(u & p & R & E) | (G & tok & user & B & NE & V & E)]]].
  - left. rewrite E. apply sameStore_refl.
  - left. rewrite E. apply sameStore_refl.
  - left. rewrite E. apply post_api_login_sameStore.
  - destruct (writes (route req)) eqn:W.
    + right. split; [reflexivity |]. exists tok, user. auto.
    + left. rewrite E. apply handler_reads_only, W.
Qed.

Lemma handler_users (r : Route) (now : Z) (salt : Salt) (user : string) (w : World) :
  users (snd (handler r now salt user w)) = users w
  \/ exists c n u,
      r = POST_change_password c n
      /\ find (byUsername user) (users w) = Some u
      /\ bcrypt_compare c (User.passwordHash u) = true
      /\ users (snd (handler r now salt user w))
         = replaceById User._id (set_passwordHash (bcrypt_hash n salt) u) (users w).
Proof.
  destruct r as [u p | c n | rn n f | | | l d | l s d]; simpl.
  - left. apply (post_api_login_sameStore u p now w).
  - destruct (find (byUsername user) (users w)) as [u |] eqn:F.
    + rewrite (change_password_found user c n salt w u F).
      destruct (bcrypt_compare c (User.passwordHash u)) eqn:V.
      * right. exists c, n, u. repeat split; auto.
      * now left.
    + left. unfold post_api_change_password, User_findOne. unfold byUsername in F.
      rewrite F. reflexivity.
  - destruct (upload_array_cases 2 f (post_api_students rn n) w)
      as [(fs & _ & _ & U) | [_ U]]; rewrite U; [now left |].
    destruct (post_api_students_effect rn n f w) as [E | [E | (r0 & n0 & fs & E)]].
    + left. now rewrite E.
    + left. apply E.
    + left. apply E.
  - now left.
  - left. unfold get_api_lectures, Lecture_find, Lecture_insertMany.
    destruct (Nat.eqb (List.length (lectures w)) 0); reflexivity.
  - left. apply (get_api_attendance_sameStore l d now w).
  - left. destruct l as [l |], s as [s |]; try reflexivity.
    unfold post_api_attendance_mark.
    destruct (dayWindow (requestDate d now)) as [start end_].
    unfold Attendance_findOne.
    destruct start as [s0 |]; [| reflexivity].
    destruct end_ as [e0 |]; [| reflexivity].
    destruct (find (inWindow l s0 e0) (attendances w)) as [a |]; simpl.
    + destruct (includes s (Attendance.studentsPresent a)); reflexivity.
    + reflexivity.
Qed.

(** X7: the stored users change in one way only: by a change-password
    request that carries a verified token and gives the current password
    of the token's user; then that user's document is rewritten with the
    new hash.  No other request changes any stored user. *)
Theorem password_changes_need_credentials (req : Request) (w : World) :
  users (snd (app req w)) = users w
  \/ exists c n tok user u,
      route req = POST_change_password c n
      /\ bearerToken (authorization req) = Some tok
      /\ jwt_verify tok JWT_SECRET (now req) = JwtUser user
      /\ find (byUsername user) (users w) = Some u
      /\ bcrypt_compare c (User.passwordHash u) = true
      /\ users (snd (app req w))
         = replaceById User._id (set_passwordHash (bcrypt_hash n (salt req)) u) (users w).
Proof.
  destruct (app_cases req w)
    as [E | [E | [(u & p & R & E) | (G & tok & user & B & NE & V & E)]]].
  - left. now rewrite E.
  - left. now rewrite E.
  - left. rewrite E. apply (post_api_login_sameStore u p (now req) w).
  - rewrite E.
    destruct (handler_users (route req) (now req) (salt req) user w)
      as [H | (c & n & u & R & F & C & H)]; [now left |].
    right. exists c, n, tok, user, u. repeat split; assumption.
Qed.

Lemma app_users_ids (req : Request) (w : World) :
  NoDup (map User._id (users w)) ->
  map User._id (users (snd (app req w))) = map User._id (users w)
  /\ map User.username (users (snd (app req w))) = map User.username (users w).
Proof.
  intros ND.
  assert (H : users (snd (app req w)) = users w
              \/ exists u h, In u (users w)
                             /\ users (snd (app req w))
                                = replaceById User._id (set_passwordHash h u) (users w)).
  { destruct (app_cases req w)
      as [E | [E | [(u & p & R & E) | (G & tok & user & B & NE & V & E)]]].
    - left. now rewrite E.
    - left. now rewrite E.
    - left. rewrite E. apply (post_api_login_sameStore u p (now req) w).
    - rewrite E.
      destruct (handler_users (route req) (now req) (salt req) user w)
        as [H | (c & n & u & R & F & C & H)]; [now left |].
      right. exists u, (bcrypt_hash n (salt req)). split; [| exact H].
      apply find_some in F. exact (proj1 F). }
  destruct H as [-> | (u & h & Hu & ->)]; [split; reflexivity |].
  split; apply replaceById_map with (d := u); auto.
Qed.

(** X11: no run of requests adds, removes, reorders or renames a user: the
    user names and the user [_id]s stay what they were, in the same order
    (the [_id]s being distinct to begin with). *)
Theorem users_are_never_added_or_renamed (reqs : list Request) (w : World) :
  NoDup (map User._id (users w)) ->
  map User.username (users (serve reqs w)) = map User.username (users w)
  /\ map User._id (users (serve reqs w)) = map User._id (users w).
Proof.
  revert w. induction reqs as [| req rest IH]; intros w ND; simpl; [split; reflexivity |].
  destruct (app_users_ids req w ND) as [I U].
  assert (ND' : NoDup (map User._id (users (snd (app req w))))) by now rewrite I.
  destruct (IH _ ND') as [U' I']. split; congruence.
Qed.

End Effects.

(** ** The roster and the lectures over a run *)

Section RosterRuns.
Context {P : Platform}.

Lemma handler_students (r : Route) (now : Z) (salt : Salt) (user : string) (w : World) :
  students (snd (handler r now salt user w)) = students w
  \/ exists rn n fs,
      r = POST_students (Some rn) (Some n) (Some fs)
      /\ rn <> "" /\ n <> "" /\ List.length fs = 2%nat
      /\ find (byRollNo rn) (students w) = None
      /\ students (snd (handler r now salt user w))
         = students w ++ [Student.mk (nextId w) rn n (map photoPath fs)].
Proof.
  destruct r as [u p | c n | rn n f | | | l d | l s d]; simpl.
  - left. apply (post_api_login_sameStore u p now w).
  - left. unfold post_api_change_password, User_findOne.
    destruct (find _ (users w)) as [x |]; [destruct (negb _) |]; reflexivity.
  - destruct (upload_array_cases 2 f (post_api_students rn n) w)
      as [(fs & _ & _ & U) | [_ U]]; rewrite U; [now left |].
    destruct (post_api_students_effect rn n f w)
      as [E | [E | (r0 & n0 & fs & -> & -> & -> & R & N & L & F & St & _)]].
    + left. now rewrite E.
    + left. apply E.
    + right. exists r0, n0, fs. repeat split; assumption.
  - now left.
  - left. unfold get_api_lectures, Lecture_find, Lecture_insertMany.
    destruct (Nat.eqb (List.length (lectures w)) 0); reflexivity.
  - left. apply (get_api_attendance_sameStore l d now w).
  - left. destruct l as [l |], s as [s |]; try reflexivity.
    unfold post_api_attendance_mark.
    destruct (dayWindow (requestDate d now)) as [start end_].
    unfold Attendance_findOne.
    destruct start as [s0 |]; [| reflexivity].
    destruct end_ as [e0 |]; [| reflexivity].
    destruct (find (inWindow l s0 e0) (attendances w)) as [a |]; simpl.
    + destruct (includes s (Attendance.studentsPresent a)); reflexivity.
    + reflexivity.
Qed.

Lemma app_students (req : Request) (w : World) :
  students (snd (app req w)) = students w
  \/ exists rn n fs,
      rn <> "" /\ n <> "" /\ List.length fs = 2%nat
      /\ find (byRollNo rn) (students w) = None
      /\ students (snd (app req w))
         = students w ++ [Student.mk (nextId w) rn n (map photoPath fs)].
Proof.
  destruct (app_cases req w)
    as [E | [E | [(u & p & R & E) | (G & tok & user & B & NE & V & E)]]].
  - left. now rewrite E.
  - left. now rewrite E.
  - left. rewrite E. apply (post_api_login_sameStore u p (now req) w).
  - rewrite E.
    destruct (handler_students (route req) (now req) (salt req) user w)
      as [H | (rn & n & fs & _ & H)]; [now left |].
    right. exists rn, n, fs. exact H.
Qed.

Lemma photoPath_prefix (fs : list File) :
  Forall (fun p => String.prefix "/uploads/students/" p = true) (map photoPath fs).
Proof.
  induction fs as [| f fs IH]; simpl; constructor; [| exact IH].
  unfold photoPath. simpl. repeat (destruct (ascii_dec _ _); [| congruence]).
  destruct (filename f); reflexivity.
Qed.

Lemma app_keeps_roster (req : Request) (w : World) :
  roster_ok w -> roster_ok (snd (app req w)).
Proof.
  intros [ND OK].
  destruct (app_students req w) as [E | (rn & n & fs & R & N & L & F & E)];
    unfold roster_ok; rewrite E; [split; assumption |].
  split.
  - rewrite map_app. simpl. apply NoDup_snoc; [exact ND |].
    intros Hin. apply in_map_iff in Hin. destruct Hin as (x & Ex & Hx).
    pose proof (proj1 (find_none_iff _ _) F x Hx) as C. unfold byRollNo in C.
    rewrite Ex, String.eqb_refl in C. discriminate.
  - apply Forall_app. split; [exact OK |]. constructor; [| constructor].
    unfold student_ok. simpl. repeat split; auto.
    + rewrite length_map. exact L.
    + apply photoPath_prefix.
Qed.

Lemma serve_keeps_roster (reqs : list Request) (w : World) :
  roster_ok w -> roster_ok (serve reqs w).
Proof.
  revert w. induction reqs as [| req rest IH]; intros w H; simpl; [exact H |].
  apply IH, app_keeps_roster, H.
Qed.

Lemma serve_appends_students (reqs : list Request) (w : World) :
  exists more, students (serve reqs w) = students w ++ more.
Proof.
  revert w. induction reqs as [| req rest IH]; intros w; simpl.
  - exists []. now rewrite app_nil_r.
  - destruct (IH (snd (app req w))) as [more E]. rewrite E.
    destruct (app_students req w) as [H | (rn & n & fs & _ & _ & _ & _ & H)]; rewrite H.
    + exists more. reflexivity.
    + eexists. rewrite <- app_assoc. reflexivity.
Qed.

(** X9: after any run of requests against the empty store no two students
    share a roll number, and every student has a roll number and a name
    that are not empty and exactly two photo paths, each under
    /uploads/students/; and the students stored at one moment are later
    still there, unchanged and in the same order, before any newer ones. *)
Theorem roster_stays_well_formed (reqs later : list Request) :
  roster_ok (serve reqs emptyWorld)
  /\ exists more,
      students (serve (reqs ++ later) emptyWorld)
      = students (serve reqs emptyWorld) ++ more.
Proof.
  split.
  - apply serve_keeps_roster. split; constructor.
  - rewrite serve_app. apply serve_appends_students.
Qed.

(** X8: a registration with a fresh roll number, a name and two files
    stores the student, whom the list of students then shows last, after
    the students that were there; the list itself changes nothing; and no
    further registration request with that roll number, whatever its name
    and files, stores a student: with a name and two files it is answered
    400 "Student with this roll no already exists" and leaves the store
    as it is. *)
Theorem register_then_list (r n : string) (fs : list File) (w : World) :
  r <> "" -> n <> "" -> List.length fs = 2%nat ->
  find (byRollNo r) (students w) = None ->
  exists student w1,
    post_api_students (Some r) (Some n) (Some fs) w
    = (Responded (mkResponse 200 (RegisteredJson "Student registered" student)), w1)
    /\ fst (get_api_students w1)
       = Responded (mkResponse 200 (StudentsJson (students w ++ [student])))
    /\ sameStore w1 (snd (get_api_students w1))
    /\ find (byRollNo r) (students w1) = Some student
    /\ (forall name' files' now salt user,
           students (snd (handler (POST_students (Some r) name' files') now salt user w1))
           = students w1)
    /\ forall n' fs',
        n' <> "" -> List.length fs' = 2%nat ->
        exists w2,
          post_api_students (Some r) (Some n') (Some fs') w1
          = (Responded (mkResponse 400
                          (Message "Student with this roll no already exists")), w2)
          /\ sameStore w1 w2.
Proof.
  intros R N L F.
  exists (Student.mk (nextId w) r n (map photoPath fs)).
  eexists. rewrite (post_api_students_valid r n fs w R N L), F. cbv zeta.
  split; [reflexivity |].
  assert (F1 : find (byRollNo r)
                    (students w ++ [Student.mk (nextId w) r n (map photoPath fs)])
               = Some (Student.mk (nextId w) r n (map photoPath fs))).
  { rewrite (find_app_miss _ _ _ F). unfold byRollNo. simpl.
    now rewrite String.eqb_refl. }
  split; [reflexivity |]. split; [repeat split |]. split; [exact F1 |].
  split.
  - intros name' files' now salt user. simpl handler.
    match goal with
    | |- students (snd (upload_array 2 files' ?next ?w1)) = _ =>
        destruct (upload_array_cases 2 files' next w1)
          as [(fs0 & _ & _ & U) | [_ U]]; rewrite U; [reflexivity |];
        destruct (post_api_students_effect (Some r) name' files' w1)
          as [E | [E | (r0 & n0 & fs0 & Er & _ & _ & _ & _ & _ & F0 & _)]]
    end.
    + now rewrite E.
    + apply E.
    + exfalso. injection Er as <-. simpl students in F0. rewrite F1 in F0.
      discriminate F0.
  - intros n' fs' N' L'. eexists.
    rewrite (post_api_students_valid r n' fs' _ R N' L'). simpl students.
    rewrite F1. split; [reflexivity | repeat split].
Qed.

Lemma handler_lectures (r : Route) (now : Z) (salt : Salt) (user : string) (w : World) :
  lectures (snd (handler r now salt user w)) = lectures w
  \/ (r = GET_lectures /\ lectures w = []
      /\ lectures (snd (handler r now salt user w)) = assignIds seedLectures (nextId w)).
Proof.
  destruct r as [u p | c n | rn n f | | | l d | l s d]; simpl.
  - left. apply (post_api_login_sameStore u p now w).
  - left. unfold post_api_change_password, User_findOne.
    destruct (find _ (users w)) as [x |]; [destruct (negb _) |]; reflexivity.
  - destruct (upload_array_cases 2 f (post_api_students rn n) w)
      as [(fs & _ & _ & U) | [_ U]]; rewrite U; [now left |].
    destruct (post_api_students_effect rn n f w) as [E | [E | (r0 & n0 & fs & E)]].
    + left. now rewrite E.
    + left. apply E.
    + left. apply E.
  - now left.
  - unfold get_api_lectures, Lecture_find.
    destruct (lectures w) as [| x xs] eqn:E; simpl.
    + right. rewrite E. auto.
    + left. exact E.
  - left. apply (get_api_attendance_sameStore l d now w).
  - left. destruct l as [l |], s as [s |]; try reflexivity.
    unfold post_api_attendance_mark.
    destruct (dayWindow (requestDate d now)) as [start end_].
    unfold Attendance_findOne.
    destruct start as [s0 |]; [| reflexivity].
    destruct end_ as [e0 |]; [| reflexivity].
    destruct (find (inWindow l s0 e0) (attendances w)) as [a |]; simpl.
    + destruct (includes s (Attendance.studentsPresent a)); reflexivity.
    + reflexivity.
Qed.

Lemma app_lectures (req : Request) (w : World) :
  lectures (snd (app req w)) = lectures w
  \/ (lectures w = []
      /\ exists id, lectures (snd (app req w)) = assignIds seedLectures id).
Proof.
  destruct (app_cases req w)
    as [E | [E | [(u & p & R & E) | (G & tok & user & B & NE & V & E)]]].
  - left. now rewrite E.
  - left. now rewrite E.
  - left. rewrite E. apply (post_api_login_sameStore u p (now req) w).
  - rewrite E.
    destruct (handler_lectures (route req) (now req) (salt req) user w)
      as [H | (_ & Em & H)]; [now left |].
    right. split; [exact Em |]. eexists. exact H.
Qed.

(** X12: over any run of requests the lectures either stay exactly what
    they were, or there were none and they have become the five seeded
    ones, once each, in the order of the literal list; they are never
    seeded on top of stored lectures and never seeded twice. *)
Theorem lectures_stay_or_are_seeded (reqs : list Request) (w : World) :
  lectures (serve reqs w) = lectures w
  \/ (lectures w = []
      /\ map lectureRow (lectures (serve reqs w)) = seedLectures
      /\ List.length (lectures (serve reqs w)) = 5%nat).
Proof.
  revert w. induction reqs as [| req rest IH]; intros w; simpl; [now left |].
  destruct (app_lectures req w) as [E | (Em & id & E)];
    destruct (IH (snd (app req w))) as [H | (Hm & Hr & Hl)].
  - left. congruence.
  - right. rewrite <- E. auto.
  - right. split; [exact Em |]. rewrite H, E. split; reflexivity.
  - rewrite E in Hm. discriminate Hm.
Qed.

End RosterRuns.

(** ** More on the ledger *)

Section LedgerMore.
Context {P : Platform}.

Lemma window_unique (s s' d : Z) :
  localMidnight s -> localMidnight s' ->
  s <= d <= s + 86399999 -> s' <= d <= s' + 86399999 -> s = s'.
Proof.
  unfold localMidnight. intros Ms Ms' B B'.
  assert (D : msPerDay = 86400000) by reflexivity.
  pose proof (Z.div_mod (s + LocalTZA) msPerDay ltac:(lia)) as Es.
  pose proof (Z.div_mod (s' + LocalTZA) msPerDay ltac:(lia)) as Es'.
  rewrite Ms in Es. rewrite Ms' in Es'.
  assert ((s + LocalTZA) / msPerDay = (s' + LocalTZA) / msPerDay) by nia.
  lia.
Qed.

(** X15: for a server whose zone keeps one offset from UTC all year,
    which is what [LocalTZA] stands for: a valid day window holds the time
    it was computed from, starts at a local midnight and ends 86 399 999
    ms later; two times have the same window exactly when they fall on the
    same local day, and the windows of two different days do not
    overlap. *)
Theorem same_day_same_window (t1 t2 s1 e1 s2 e2 : Z) :
  dayWindow (Some t1) = (Some s1, Some e1) ->
  dayWindow (Some t2) = (Some s2, Some e2) ->
  (localMidnight s1 /\ s1 <= t1 <= e1 /\ e1 = s1 + 86399999)
  /\ ((s1, e1) = (s2, e2) <-> Day (LocalTime t1) = Day (LocalTime t2))
  /\ (s1 <> s2 -> e1 < s2 \/ e2 < s1).
Proof.
  intros W1 W2.
  destruct (dayWindow_valid _ _ _ W1) as (M1 & B1 & E1).
  destruct (dayWindow_valid _ _ _ W2) as (M2 & B2 & E2).
  assert (D : msPerDay = 86400000) by reflexivity.
  unfold localMidnight in M1, M2.
  pose proof (Z.div_mod (s1 + LocalTZA) msPerDay ltac:(lia)) as Q1.
  pose proof (Z.div_mod (s2 + LocalTZA) msPerDay ltac:(lia)) as Q2.
  rewrite M1 in Q1. rewrite M2 in Q2.
  assert (D1 : Day (LocalTime t1) = (s1 + LocalTZA) / msPerDay).
  { unfold Day, LocalTime. symmetry.
    apply Z.div_unique with (r := t1 - s1); lia. }
  assert (D2 : Day (LocalTime t2) = (s2 + LocalTZA) / msPerDay).
  { unfold Day, LocalTime. symmetry.
    apply Z.div_unique with (r := t2 - s2); lia. }
  split; [unfold localMidnight; repeat split; lia |].
  split.
  - rewrite D1, D2. split.
    + intros E. injection E as -> _. reflexivity.
    + intros E. assert (s1 = s2) by lia. subst. reflexivity.
  - intros NE.
    assert ((s1 + LocalTZA) / msPerDay <> (s2 + LocalTZA) / msPerDay) by lia.
    nia.
Qed.

Lemma includes_false (studentId : ObjectId) (l : list ObjectId) :
  includes studentId l = false -> ~ In studentId l.
Proof.
  unfold includes. intros H Hin.
  assert (E : existsb (N.eqb studentId) l = true).
  { apply existsb_exists. exists studentId. split; [exact Hin | apply N.eqb_refl]. }
  congruence.
Qed.

Lemma includes_other (s1 s2 : ObjectId) (l : list ObjectId) :
  s1 <> s2 -> includes s2 l = false -> includes s2 (l ++ [s1]) = false.
Proof.
  intros NE H. unfold includes, ObjectId in *. rewrite existsb_app, H. simpl.
  destruct (N.eqb_spec s2 s1); [congruence | reflexivity].
Qed.

Lemma inWindow_start (lectureId : ObjectId) (s : Z) (id : ObjectId) (l : list ObjectId) :
  inWindow lectureId s (s + 86399999) (Attendance.mk id lectureId (Some s) l) = true.
Proof.
  unfold inWindow. simpl. rewrite N.eqb_refl. simpl.
  destruct (Z.leb_spec s s); [| lia].
  destruct (Z.leb_spec s (s + 86399999)); [reflexivity | lia].
Qed.

(** X13: two different students marked one after the other for the same
    lecture and day, neither of them marked before, are both accepted and
    end up in one and the same record, after those who were already
    present, in the order of the two marks; the second mark adds no
    record. *)
Theorem mark_two_students (lectureId s1 s2 : ObjectId) (date1 date2 : option string)
        (now1 now2 : Z) (w : World) (s e : Z) :
  dayWindow (requestDate date1 now1) = (Some s, Some e) ->
  dayWindow (requestDate date2 now2) = (Some s, Some e) ->
  s1 <> s2 ->
  (forall a, find (inWindow lectureId s e) (attendances w) = Some a ->
             includes s1 (Attendance.studentsPresent a) = false
             /\ includes s2 (Attendance.studentsPresent a) = false) ->
  exists rec1 w1 rec2 w2,
    post_api_attendance_mark (Some lectureId) (Some s1) date1 now1 w
    = (Responded (mkResponse 200 (MarkedJson "Attendance marked" rec1)), w1)
    /\ post_api_attendance_mark (Some lectureId) (Some s2) date2 now2 w1
       = (Responded (mkResponse 200 (MarkedJson "Attendance marked" rec2)), w2)
    /\ Attendance.studentsPresent rec2
       = match find (inWindow lectureId s e) (attendances w) with
         | Some a => Attendance.studentsPresent a
         | None => []
         end ++ [s1; s2]
    /\ Attendance._id rec2 = Attendance._id rec1
    /\ find (inWindow lectureId s e) (attendances w2) = Some rec2
    /\ List.length (attendances w2) = List.length (attendances w1).
Proof.
  intros W1 W2 NE Fresh.
  rewrite (post_api_attendance_mark_valid _ _ _ _ _ _ _ W1).
  destruct (requestDate date1 now1) as [t |] eqn:D; [| discriminate W1].
  destruct (dayWindow_valid _ _ _ W1) as (M & B & E). clear D.
  destruct (find (inWindow lectureId s e) (attendances w)) as [a |] eqn:F; cbv zeta.
  - destruct (Fresh a eq_refl) as [I1 I2]. rewrite I1.
    pose proof (find_some _ _ F) as [Ha Pa].
    assert (F1 : find (inWindow lectureId s e)
                      (replaceById Attendance._id (push s1 a) (attendances w))
                 = Some (push s1 a)).
    { apply find_replaceById with (d := a); [exact F | reflexivity | exact Pa]. }
    do 4 eexists. split; [reflexivity |].
    rewrite (post_api_attendance_mark_valid _ _ _ _ _ _ _ W2). cbv zeta.
    simpl attendances. rewrite F1.
    simpl Attendance.studentsPresent. rewrite (includes_other _ _ _ NE I2).
    split; [reflexivity |].
    split; [simpl; rewrite <- app_assoc; reflexivity |].
    split; [reflexivity |].
    split; [| simpl; now rewrite !replaceById_length].
    simpl. apply find_replaceById with (d := push s1 a); [exact F1 | reflexivity |].
    exact Pa.
  - subst e.
    assert (F1 : find (inWindow lectureId s (s + 86399999))
                      (attendances w ++ [Attendance.mk (nextId w) lectureId (Some s) [s1]])
                 = Some (Attendance.mk (nextId w) lectureId (Some s) [s1])).
    { rewrite (find_app_miss _ _ _ F), inWindow_start. reflexivity. }
    do 4 eexists. split; [reflexivity |].
    rewrite (post_api_attendance_mark_valid _ _ _ _ _ _ _ W2). cbv zeta.
    simpl attendances. rewrite F1.
    simpl Attendance.studentsPresent.
    assert (I2 : includes s2 [s1] = false) by exact (includes_other s1 s2 [] NE eq_refl).
    rewrite I2.
    split; [reflexivity |].
    split; [reflexivity |].
    split; [reflexivity |].
    split; [| simpl; now rewrite !replaceById_length].
    simpl. apply find_replaceById
             with (d := Attendance.mk (nextId w) lectureId (Some s) [s1]);
      [exact F1 | reflexivity | apply inWindow_start].
Qed.

Lemma find_app_skip {A : Type} (p : A -> bool) (l : list A) (x : A) :
  p x = false -> find p (l ++ [x]) = find p l.
Proof.
  intros H. induction l as [| y l IH]; simpl; [now rewrite H |].
  destruct (p y); [reflexivity | exact IH].
Qed.

Lemma find_replaceById_skip {A : Type} (id_of : A -> ObjectId) (p : A -> bool)
      (l : list A) (d d' : A) :
  In d l -> NoDup (map id_of l) -> id_of d' = id_of d ->
  p d = false -> p d' = false ->
  find p (replaceById id_of d' l) = find p l.
Proof.
  intros Hin ND I Pd Pd'.
  induction l as [| y l IH]; simpl in *; [reflexivity |].
  inversion ND as [| ? ? Hy ND']; subst.
  destruct (N.eqb_spec (id_of y) (id_of d')) as [E | E].
  - assert (y = d).
    { destruct Hin as [-> | Hin]; [reflexivity |].
      exfalso. apply Hy. rewrite E, I. now apply in_map. }
    subst y. rewrite Pd, Pd'.
    clear IH. unfold replaceById.
    f_equal. rewrite <- (map_id l) at 2. apply map_ext_in. intros x Hx.
    destruct (N.eqb_spec (id_of x) (id_of d')) as [Ex | Ex]; [| reflexivity].
    exfalso. apply Hy. rewrite <- I, <- Ex. now apply in_map.
  - destruct (p y); [reflexivity |].
    destruct Hin as [-> | Hin]; [congruence |].
    apply IH; assumption.
Qed.

(** X14: a mark for one lecture and day, whatever its outcome, changes
    nothing for any other lecture or any other day: the record that a
    look-up of the other key finds, and the answer of a query for it, are
    the ones from before the mark. *)
Theorem mark_leaves_other_days (lectureId studentId : ObjectId) (date : option string)
        (now : Z) (w : World) (s e : Z)
        (lectureId' : ObjectId) (date' : option string) (now' : Z) (s' e' : Z) :
  NoDup (map Attendance._id (attendances w)) ->
  dayWindow (requestDate date now) = (Some s, Some e) ->
  dayWindow (requestDate date' now') = (Some s', Some e') ->
  (lectureId', s') <> (lectureId, s) ->
  find (inWindow lectureId' s' e')
       (attendances
          (snd (post_api_attendance_mark (Some lectureId) (Some studentId) date now w)))
  = find (inWindow lectureId' s' e') (attendances w)
  /\ fst (get_api_attendance lectureId' date' now'
            (snd (post_api_attendance_mark (Some lectureId) (Some studentId) date now w)))
     = fst (get_api_attendance lectureId' date' now' w).
Proof.
  intros ND W W' NE.
  destruct (requestDate date now) as [t |] eqn:D; [| discriminate W].
  destruct (requestDate date' now') as [t' |] eqn:D'; [| discriminate W'].
  destruct (dayWindow_valid _ _ _ W) as (M & B & E).
  destruct (dayWindow_valid _ _ _ W') as (M' & B' & E').
  rewrite <- D in W. rewrite <- D' in W'.
  assert (Other : forall a, inWindow lectureId s e a = true ->
                            inWindow lectureId' s' e' a = false).
  { intros a Pa. destruct (inWindow lectureId' s' e' a) eqn:Pa'; [| reflexivity].
    exfalso. apply inWindow_true in Pa, Pa'.
    destruct Pa as (L & d & Da & Bd). destruct Pa' as (L' & d' & Da' & Bd').
    rewrite Da in Da'. injection Da' as <-. subst e e'.
    apply NE. f_equal; [congruence |].
    symmetry. apply (window_unique s s' d); assumption. }
  assert (St : students
                 (snd (post_api_attendance_mark (Some lectureId) (Some studentId) date now w))
               = students w
               /\ find (inWindow lectureId' s' e')
                       (attendances
                          (snd (post_api_attendance_mark (Some lectureId) (Some studentId)
                                                         date now w)))
                  = find (inWindow lectureId' s' e') (attendances w)).
  { rewrite (post_api_attendance_mark_valid _ _ _ _ _ _ _ W). cbv zeta.
    destruct (find (inWindow lectureId s e) (attendances w)) as [a |] eqn:F.
    - pose proof (find_some _ _ F) as [Ha Pa].
      destruct (includes studentId (Attendance.studentsPresent a));
        [split; reflexivity |].
      split; [reflexivity |]. simpl.
      apply find_replaceById_skip with (d := a);
        [exact Ha | exact ND | reflexivity | exact (Other a Pa) | exact (Other a Pa)].
    - split; [reflexivity |]. simpl. apply find_app_skip.
      apply Other. subst e. apply inWindow_start. }
  destruct St as [St Fd]. split; [exact Fd |].
  rewrite !(get_api_attendance_valid _ _ _ _ _ _ W'), Fd, St.
  destruct (find (inWindow lectureId' s' e') (attendances w)); reflexivity.
Qed.

Lemma app_keeps_present (req : Request) (w : World) :
  NoDup (map Attendance._id (attendances w)) ->
  (forall a, In a (attendances w) ->
             NoDup (Attendance.studentsPresent a) /\ Attendance.studentsPresent a <> []) ->
  forall a, In a (attendances (snd (app req w))) ->
            NoDup (Attendance.studentsPresent a) /\ Attendance.studentsPresent a <> [].
Proof.
  intros ND H.
  destruct (app_effect req w) as [A I | l st d s e R W F A I | l st d s e a R W F Inc A I];
    rewrite A; intros x Hx.
  - apply H, Hx.
  - apply in_app_or in Hx. destruct Hx as [Hx | [<- | []]]; [apply H, Hx |].
    simpl. split; [constructor; [intros [] | constructor] | discriminate].
  - apply in_replaceById in Hx. destruct Hx as [-> | Hx]; [| apply H, Hx].
    pose proof (find_some _ _ F) as [Ha _]. destruct (H a Ha) as [Na _].
    simpl. split.
    + apply NoDup_snoc; [exact Na | apply includes_false, Inc].
    + destruct (Attendance.studentsPresent a); discriminate.
Qed.

(** X16: after any run of requests against the empty store the records
    have distinct [_id]s, no two records have the same lecture and date,
    every record is dated at the start of a day window (a local midnight,
    the zone keeping one offset from UTC), and no record has an empty
    present list. *)
Theorem ledger_records_well_formed (reqs : list Request) :
  ledger_ok (serve reqs emptyWorld)
  /\ forall a, In a (attendances (serve reqs emptyWorld)) ->
               Attendance.studentsPresent a <> [].
Proof.
  split; [apply serve_keeps_ok, emptyWorld_ok |].
  assert (G : forall w, ledger_ok w ->
                        (forall a, In a (attendances w) ->
                                   NoDup (Attendance.studentsPresent a)
                                   /\ Attendance.studentsPresent a <> []) ->
                        forall a, In a (attendances (serve reqs w)) ->
                                  NoDup (Attendance.studentsPresent a)
                                  /\ Attendance.studentsPresent a <> []).
  { induction reqs as [| req rest IH]; intros w OK H; simpl; [exact H |].
    apply IH.
    - eapply effect_keeps_ok; [exact OK | apply app_effect].
    - apply app_keeps_present; [exact (proj1 OK) | exact H]. }
  intros a Ha. apply (G emptyWorld emptyWorld_ok); [intros x [] | exact Ha].
Qed.

End LedgerMore.

(** ** Photo file names *)

Lemma append_cancel_l (a x y : string) : (a ++ x = a ++ y)%string -> x = y.
Proof.
  induction a as [| c a IH]; simpl; intros H; [exact H |].
  injection H as H. apply IH, H.
Qed.

Lemma append_length (x y : string) :
  String.length (x ++ y)%string = (String.length x + String.length y)%nat.
Proof. induction x as [| c x IH]; simpl; [reflexivity | now rewrite IH]. Qed.

Lemma append_cancel_r (x y e : string) : (x ++ e = y ++ e)%string -> x = y.
Proof.
  revert y. induction x as [| c x IH]; intros [| d y] H; simpl in H.
  - reflexivity.
  - exfalso. apply (f_equal String.length) in H. simpl in H.
    rewrite append_length in H. lia.
  - exfalso. apply (f_equal String.length) in H. simpl in H.
    rewrite append_length in H. lia.
  - injection H as -> H. f_equal. apply IH, H.
Qed.

Lemma Number_toString_inj (m n : Z) : Number_toString m = Number_toString n -> m = n.
Proof.
  unfold Number_toString. intros H.
  apply DecimalZ.to_int_inj.
  assert (E : Some (Z.to_int m) = Some (Z.to_int n)).
  { rewrite <- !NilEmpty.isi. now rewrite H. }
  now injection E.
Qed.

(** X17: two files of the same form field whose original names have the
    same extension are stored under different names whenever the clock
    readings at their arrival differ, and under one and the same name when
    the readings are equal. *)
Theorem storage_filename_by_clock (extname : string -> string)
        (fieldname original1 original2 : string) (now1 now2 : Z) :
  extname original1 = extname original2 ->
  (storage_filename extname fieldname original1 now1
   = storage_filename extname fieldname original2 now2
   <-> now1 = now2).
Proof.
  intros E. unfold storage_filename. cbv zeta. rewrite E. split.
  - intros H. apply append_cancel_l in H. apply append_cancel_l in H.
    apply append_cancel_r in H. apply Number_toString_inj, H.
  - intros ->. reflexivity.
Qed.

(** ** Registration behind the upload middleware *)

Section Upload.
Context {P : Platform}.

(** C7, where the code departs from it: the upload middleware stands
    before the handler and lets two files pass at most.  A registration
    request with more than two photos, token valid, is answered by Express
    with status 500 for the upload error, the world left as it was; it
    never reaches the handler, whose own answer to such a list of files
    would have been 400 "Two photos required". *)
Theorem upload_limit_preempts_photo_check (rollNo name : option string) (fs : list File)
        (scheme tok user : string) (now : Z) (salt : Salt) (w : World) :
  (2 < List.length fs)%nat ->
  noSpace scheme = true -> noSpace tok = true -> tok <> "" ->
  jwt_verify tok JWT_SECRET now = JwtUser user ->
  app (mkRequest (Some (scheme ++ " " ++ tok)%string)
                 (POST_students rollNo name (Some fs)) now salt) w
  = (Responded (mkResponse 500 (ErrorPage "MulterError: Unexpected field")), w)
  /\ (truthy rollNo = true -> truthy name = true ->
      post_api_students rollNo name (Some fs) w
      = (Responded (mkResponse 400 (Message "Two photos required")), w)).
Proof.
  intros L S T NE V. split.
  - rewrite (app_passes_token scheme tok user (POST_students rollNo name (Some fs))
               now salt w eq_refl S T NE V).
    simpl handler.
    destruct (upload_array_cases 2 (Some fs) (post_api_students rollNo name) w)
      as [(fs0 & _ & _ & U) | [Le _]]; [exact U | lia].
  - intros Hr Hn.
    apply (proj1 (proj2 (register_student_cases rollNo name (Some fs) w)) Hr Hn).
    lia.
Qed.


End Upload.

(** ** Marks on the text of the request *)

Section MarkTextFacts.
Context {P : Platform} {B : Bson}.

Lemma post_api_attendance_mark_text_valid (lectureText studentText : string)
      (lectureId : ObjectId) (date : option string) (now : Z) (w : World) (s e : Z) :
  lectureText <> "" -> studentText <> "" ->
  castObjectId lectureText = Some lectureId ->
  dayWindow (requestDate date now) = (Some s, Some e) ->
  post_api_attendance_mark_text (Some lectureText) (Some studentText) date now w =
  let w1 := logOp (Attendance_findOne_op lectureId s e) w in
  match find (inWindow lectureId s e) (attendances w) with
  | Some a =>
      if includes_text studentText (Attendance.studentsPresent a)
      then (status_json 400 (Message "Student already marked present"), w1)
      else
        match castObjectId studentText with
        | Some studentId =>
            (json (MarkedJson "Attendance marked" (push studentId a)),
             Attendance_save false (push studentId a) w1)
        | None => (Rejected (CastError "studentsPresent"), w1)
        end
  | None =>
      match castObjectId studentText with
      | Some studentId =>
          let a := Attendance.mk (nextId w) lectureId (Some s) [studentId] in
          (json (MarkedJson "Attendance marked" a),
           Attendance_save true a (snd (allocId w1)))
      | None => (Rejected (CastError "studentsPresent"), snd (allocId w1))
      end
  end.
Proof.
  intros NL NS CL W. unfold post_api_attendance_mark_text, truthy.
  destruct (String.eqb_spec lectureText ""); [contradiction |].
  destruct (String.eqb_spec studentText ""); [contradiction |].
  cbn [negb orb]. rewrite W, CL. unfold Attendance_findOne.
  destruct (find (inWindow lectureId s e) (attendances w)) as [a |]; simpl.
  - destruct (includes_text studentText (Attendance.studentsPresent a)); simpl;
      [reflexivity |].
    destruct (castObjectId studentText); reflexivity.
  - destruct (castObjectId studentText); reflexivity.
Qed.

Lemma includes_text_snoc (studentText : string) (l : list ObjectId) (id : ObjectId) :
  includes_text studentText (l ++ [id])
  = includes_text studentText l || String.eqb studentText (toHexString id).
Proof.
  unfold includes_text. rewrite existsb_app. simpl. now rewrite orb_false_r.
Qed.

Lemma count_twice (id : ObjectId) (l : list ObjectId) :
  (2 <= count_occ N.eq_dec (l ++ [id; id]) id)%nat.
Proof.
  unfold ObjectId in *. rewrite count_occ_app. simpl.
  destruct (N.eq_dec id id); [lia | contradiction].
Qed.

(** What two marks of one student for one lecture and day do, the student
    not being found in the day's record at the start: the first is
    accepted; the second is refused when the stored id prints as the text
    of the request, and accepted once more when it does not. *)
Lemma mark_text_twice (lectureText studentText : string) (lectureId studentId : ObjectId)
      (date1 date2 : option string) (now1 now2 : Z) (w : World) (s e : Z) :
  lectureText <> "" -> studentText <> "" ->
  castObjectId lectureText = Some lectureId ->
  castObjectId studentText = Some studentId ->
  dayWindow (requestDate date1 now1) = (Some s, Some e) ->
  dayWindow (requestDate date2 now2) = (Some s, Some e) ->
  (forall a, find (inWindow lectureId s e) (attendances w) = Some a ->
             includes_text studentText (Attendance.studentsPresent a) = false) ->
  exists rec1 w1,
    post_api_attendance_mark_text (Some lectureText) (Some studentText) date1 now1 w
    = (json (MarkedJson "Attendance marked" rec1), w1)
    /\ Attendance.studentsPresent rec1
       = match find (inWindow lectureId s e) (attendances w) with
         | Some a => Attendance.studentsPresent a
         | None => []
         end ++ [studentId]
    /\ find (inWindow lectureId s e) (attendances w1) = Some rec1
    /\ post_api_attendance_mark_text (Some lectureText) (Some studentText) date2 now2 w1
       = if String.eqb studentText (toHexString studentId)
         then (status_json 400 (Message "Student already marked present"),
               logOp (Attendance_findOne_op lectureId s e) w1)
         else (json (MarkedJson "Attendance marked" (push studentId rec1)),
               Attendance_save false (push studentId rec1)
                               (logOp (Attendance_findOne_op lectureId s e) w1)).
Proof.
  intros NL NS CL CS W1 W2 Fresh.
  rewrite (post_api_attendance_mark_text_valid _ _ _ _ _ _ _ _ NL NS CL W1).
  destruct (requestDate date1 now1) as [t |] eqn:D; [| discriminate W1].
  destruct (dayWindow_valid _ _ _ W1) as (M & Bd & E). clear D.
  rewrite CS. cbv zeta.
  destruct (find (inWindow lectureId s e) (attendances w)) as [a |] eqn:F.
  - rewrite (Fresh a eq_refl).
    pose proof (find_some _ _ F) as [Ha Pa].
    assert (F1 : find (inWindow lectureId s e)
                      (replaceById Attendance._id (push studentId a) (attendances w))
                 = Some (push studentId a)).
    { apply find_replaceById with (d := a); [exact F | reflexivity | exact Pa]. }
    do 2 eexists. split; [reflexivity |]. split; [reflexivity |].
    split; [exact F1 |].
    rewrite (post_api_attendance_mark_text_valid _ _ _ _ _ _ _ _ NL NS CL W2). cbv zeta.
    simpl attendances. rewrite F1. simpl Attendance.studentsPresent.
    rewrite includes_text_snoc, (Fresh a eq_refl), CS. simpl.
    destruct (String.eqb studentText (toHexString studentId)); reflexivity.
  - subst e.
    assert (F1 : find (inWindow lectureId s (s + 86399999))
                      (attendances w
                       ++ [Attendance.mk (nextId w) lectureId (Some s) [studentId]])
                 = Some (Attendance.mk (nextId w) lectureId (Some s) [studentId])).
    { rewrite (find_app_miss _ _ _ F).
      unfold inWindow. simpl. rewrite N.eqb_refl. simpl.
      destruct (Z.leb_spec s s); [| lia].
      destruct (Z.leb_spec s (s + 86399999)); [reflexivity | lia]. }
    do 2 eexists. split; [reflexivity |]. split; [reflexivity |].
    split; [exact F1 |].
    rewrite (post_api_attendance_mark_text_valid _ _ _ _ _ _ _ _ NL NS CL W2). cbv zeta.
    simpl attendances. rewrite F1. simpl Attendance.studentsPresent.
    unfold includes_text. simpl. rewrite CS.
    destruct (String.eqb studentText (toHexString studentId)); reflexivity.
Qed.

(** C1, where the code departs from it: the handler looks for the text of
    [studentId] among the stored ids and casts it only when it adds it.
    When the text casts to an id that is not printed the way the text is
    spelled (an id in upper-case digits), two marks of that student for
    the same lecture and day are both answered 200 "Attendance marked",
    and the day's record then holds the student twice. *)
Theorem mark_twice_in_another_spelling (lectureText studentText : string)
        (lectureId studentId : ObjectId) (date1 date2 : option string) (now1 now2 : Z)
        (w : World) (s e : Z) :
  lectureText <> "" -> studentText <> "" ->
  castObjectId lectureText = Some lectureId ->
  castObjectId studentText = Some studentId ->
  toHexString studentId <> studentText ->
  dayWindow (requestDate date1 now1) = (Some s, Some e) ->
  dayWindow (requestDate date2 now2) = (Some s, Some e) ->
  (forall a, find (inWindow lectureId s e) (attendances w) = Some a ->
             includes_text studentText (Attendance.studentsPresent a) = false) ->
  exists rec1 w1 rec2 w2,
    post_api_attendance_mark_text (Some lectureText) (Some studentText) date1 now1 w
    = (Responded (mkResponse 200 (MarkedJson "Attendance marked" rec1)), w1)
    /\ post_api_attendance_mark_text (Some lectureText) (Some studentText) date2 now2 w1
       = (Responded (mkResponse 200 (MarkedJson "Attendance marked" rec2)), w2)
    /\ Attendance.studentsPresent rec2
       = match find (inWindow lectureId s e) (attendances w) with
         | Some a => Attendance.studentsPresent a
         | None => []
         end ++ [studentId; studentId]
    /\ find (inWindow lectureId s e) (attendances w2) = Some rec2
    /\ (2 <= count_occ N.eq_dec (Attendance.studentsPresent rec2) studentId)%nat.
Proof.
  intros NL NS CL CS Spell W1 W2 Fresh.
  destruct (mark_text_twice _ _ _ _ _ _ _ _ _ _ _ NL NS CL CS W1 W2 Fresh)
    as (rec1 & w1 & M1 & Pr & F1 & M2).
  destruct (String.eqb_spec studentText (toHexString studentId)) as [E | _];
    [symmetry in E; contradiction |].
  exists rec1, w1, (push studentId rec1).
  eexists. split; [exact M1 |]. split; [exact M2 |].
  assert (Pr2 : Attendance.studentsPresent (push studentId rec1)
                = match find (inWindow lectureId s e) (attendances w) with
                  | Some a => Attendance.studentsPresent a
                  | None => []
                  end ++ [studentId; studentId]).
  { simpl. rewrite Pr, <- app_assoc. reflexivity. }
  split; [exact Pr2 |]. split.
  - simpl. apply find_replaceById with (d := rec1); [exact F1 | reflexivity |].
    apply find_some in F1. exact (proj2 F1).
  - rewrite Pr2. apply count_twice.
Qed.

(** X18: when the text of [studentId] is spelled the way its id is
    printed, two marks of that student for the same lecture and day, the
    student not being found in the day's record at the start, go as they
    should: the first is answered 200 with the record, the student added
    at its end, and the second 400 "Student already marked present", the
    store being left as the first mark made it. *)
Theorem mark_twice_in_canonical_spelling (lectureText studentText : string)
        (lectureId studentId : ObjectId) (date1 date2 : option string) (now1 now2 : Z)
        (w : World) (s e : Z) :
  lectureText <> "" -> studentText <> "" ->
  castObjectId lectureText = Some lectureId ->
  castObjectId studentText = Some studentId ->
  toHexString studentId = studentText ->
  dayWindow (requestDate date1 now1) = (Some s, Some e) ->
  dayWindow (requestDate date2 now2) = (Some s, Some e) ->
  (forall a, find (inWindow lectureId s e) (attendances w) = Some a ->
             includes_text studentText (Attendance.studentsPresent a) = false) ->
  exists rec1 w1 w2,
    post_api_attendance_mark_text (Some lectureText) (Some studentText) date1 now1 w
    = (Responded (mkResponse 200 (MarkedJson "Attendance marked" rec1)), w1)
    /\ Attendance.studentsPresent rec1
       = match find (inWindow lectureId s e) (attendances w) with
         | Some a => Attendance.studentsPresent a
         | None => []
         end ++ [studentId]
    /\ find (inWindow lectureId s e) (attendances w1) = Some rec1
    /\ post_api_attendance_mark_text (Some lectureText) (Some studentText) date2 now2 w1
       = (Responded (mkResponse 400 (Message "Student already marked present")), w2)
    /\ sameStore w1 w2.
Proof.
  intros NL NS CL CS Spell W1 W2 Fresh.
  destruct (mark_text_twice _ _ _ _ _ _ _ _ _ _ _ NL NS CL CS W1 W2 Fresh)
    as (rec1 & w1 & M1 & Pr & F1 & M2).
  rewrite Spell, String.eqb_refl in M2.
  exists rec1, w1. eexists. split; [exact M1 |]. split; [exact Pr |].
  split; [exact F1 |]. split; [exact M2 | repeat split].
Qed.

(** X19: the handler on text and the handler on ids agree, outcome and
    world, whenever the two texts cast to the ids and looking for the
    student's text among the ids of the day's record gives what looking
    for the student's id gives; that is the case when the student's text
    is spelled as its id is printed and no other id of the record is
    printed that way. *)
Theorem mark_text_agrees_with_ids (lectureText studentText : string)
        (lectureId studentId : ObjectId) (date : option string) (now : Z) (w : World) :
  lectureText <> "" -> studentText <> "" ->
  castObjectId lectureText = Some lectureId ->
  castObjectId studentText = Some studentId ->
  toHexString studentId = studentText ->
  (forall a id, In a (attendances w) -> In id (Attendance.studentsPresent a) ->
                toHexString id = studentText -> id = studentId) ->
  post_api_attendance_mark_text (Some lectureText) (Some studentText) date now w
  = post_api_attendance_mark (Some lectureId) (Some studentId) date now w.
Proof.
  intros NL NS CL CS Spell Inj.
  assert (Same : forall a, In a (attendances w) ->
                           includes_text studentText (Attendance.studentsPresent a)
                           = includes studentId (Attendance.studentsPresent a)).
  { intros a Ha. unfold includes_text, includes.
    pose proof (fun id => Inj a id Ha) as Inj'. clear Inj. revert Inj'.
    induction (Attendance.studentsPresent a) as [| id l IH]; intros Inj; [reflexivity |].
    simpl. rewrite IH by (intros id' Hin Hid; apply Inj; [now right | exact Hid]).
    f_equal. destruct (N.eqb_spec studentId id) as [<- | NE].
    - rewrite Spell. apply String.eqb_refl.
    - destruct (String.eqb_spec studentText (toHexString id)) as [E | _]; [| reflexivity].
      exfalso. apply NE. symmetry. apply Inj; [now left | now symmetry]. }
  unfold post_api_attendance_mark_text, post_api_attendance_mark, truthy.
  destruct (String.eqb_spec lectureText ""); [contradiction |].
  destruct (String.eqb_spec studentText ""); [contradiction |].
  cbn [negb orb]. rewrite CL.
  destruct (dayWindow (requestDate date now)) as [start end_].
  unfold Attendance_findOne.
  destruct start as [s0 |]; [| reflexivity].
  destruct end_ as [e0 |]; [| reflexivity].
  destruct (find (inWindow lectureId s0 e0) (attendances w)) as [a |] eqn:F; simpl.
  - apply find_some in F. rewrite (Same a (proj1 F)), CS. reflexivity.
  - rewrite CS. reflexivity.
Qed.

End MarkTextFacts.

(** ** The further properties at work on the demo platform *)

Lemma authorization_second_field_witness :
  noSpace "Token" = true
  /\ noSpace "abc.def.ghi" = true
  /\ bearerToken (Some "Token abc.def.ghi") = Some "abc.def.ghi"
  /\ bearerToken (Some "Token abc.def.ghi and more") = Some "abc.def.ghi"
  /\ truthy (bearerToken (Some "Token")) = false.
Proof.
  split; [reflexivity |]. split; [reflexivity |].
  destruct (authorization_second_field "Token" "abc.def.ghi" eq_refl eq_refl)
    as (A & B & C).
  split; [exact A |]. split; [exact (B "and more") | exact C].
Defined.

Lemma gate_passes_verified_token_witness :
  is_gated GET_students = true
  /\ noSpace "Token" = true
  /\ noSpace "akash.session.valid" = true
  /\ "akash.session.valid" <> ""
  /\ @jwt_verify demoPlatform "akash.session.valid" JWT_SECRET 0 = JwtUser "Akash"
  /\ @app demoPlatform (mkRequest (Some "Token akash.session.valid") GET_students 0 0%N)
          demoRoster
     = @handler demoPlatform GET_students 0 0%N "Akash" demoRoster.
Proof.
  assert (NE : "akash.session.valid" <> "") by discriminate.
  repeat (split; [first [reflexivity | exact NE] |]).
  exact (proj1 (@gate_passes_verified_token demoPlatform "Token" "akash.session.valid"
                  "Akash" GET_students 0 0%N demoRoster eq_refl eq_refl eq_refl NE eq_refl)).
Defined.

Lemma login_outcomes_witness :
  fst (@post_api_login demoPlatform "Akash" "wrong" 0 demoUsers)
  = Responded (mkResponse 400 (Message "Invalid username or password"))
  /\ sameStore demoUsers (snd (@post_api_login demoPlatform "Akash" "wrong" 0 demoUsers)).
Proof.
  destruct (@login_outcomes demoPlatform "Akash" "wrong" None 0 0%N demoUsers)
    as (_ & Same & [[Refused _] | (u & F & V & _)]).
  - split; [exact Refused | exact Same].
  - exfalso. injection F as <-. discriminate V.
Defined.

Lemma seed_demo_user_once_witness :
  find (byUsername "Akash") (users emptyWorld) = None
  /\ users (@seedDemoUser demoPlatform 0%N emptyWorld)
     = [User.mk 0%N "Akash" "$2a$10$12345"]
  /\ find (byUsername "Akash") (users demoUsers) <> None
  /\ users (@seedDemoUser demoPlatform 7%N demoUsers) = users demoUsers.
Proof.
  assert (S : find (byUsername "Akash") (users demoUsers) <> None) by discriminate.
  split; [reflexivity |].
  destruct (@seed_demo_user_once demoPlatform 0%N 7%N emptyWorld)
    as (_ & _ & Fresh & _).
  destruct (@seed_demo_user_once demoPlatform 7%N 7%N demoUsers)
    as (_ & _ & _ & Kept & _).
  split; [exact (Fresh eq_refl) |]. split; [exact S | exact (Kept S)].
Defined.

Lemma seed_then_login_witness :
  find (byUsername "Akash") (users emptyWorld) = None
  /\ @bcrypt_compare demoPlatform "12345" (@bcrypt_hash demoPlatform "12345" 0%N) = true
  /\ fst (@post_api_login demoPlatform "Akash" "12345" 0
                           (@seedDemoUser demoPlatform 0%N emptyWorld))
     = Responded (mkResponse 200 (TokenJson "akash.session.valid")).
Proof.
  split; [reflexivity |]. split; [reflexivity |].
  exact (proj1 (@seed_then_login demoPlatform 0%N 0 emptyWorld eq_refl eq_refl)).
Defined.

Lemma change_password_session_witness :
  find (byUsername "Akash") (users demoUsers) = Some (User.mk 0%N "Akash" "$2a$10$12345")
  /\ @bcrypt_compare demoPlatform "12345" "$2a$10$12345" = true
  /\ noSpace (@jwt_sign demoPlatform "Akash" JWT_SECRET 0) = true
  /\ @jwt_sign demoPlatform "Akash" JWT_SECRET 0 <> ""
  /\ @jwt_verify demoPlatform (@jwt_sign demoPlatform "Akash" JWT_SECRET 0) JWT_SECRET 60000
     = JwtUser "Akash"
  /\ @bcrypt_compare demoPlatform "s3cret" (@bcrypt_hash demoPlatform "s3cret" 1%N) = true
  /\ exists w1 w2,
      @post_api_login demoPlatform "Akash" "12345" 0 demoUsers
      = (Responded (mkResponse 200 (TokenJson "akash.session.valid")), w1)
      /\ @app demoPlatform
              (mkRequest (Some "Bearer akash.session.valid")
                         (POST_change_password "12345" "s3cret") 60000 1%N) w1
         = (Responded (mkResponse 200 (Message "Password changed successfully")), w2)
      /\ fst (@post_api_login demoPlatform "Akash" "s3cret" 120000 w2)
         = Responded (mkResponse 200 (TokenJson "akash.session.valid"))
      /\ fst (@post_api_login demoPlatform "Akash" "12345" 120000 w2)
         = Responded (mkResponse 400 (Message "Invalid username or password")).
Proof.
  assert (NE : @jwt_sign demoPlatform "Akash" JWT_SECRET 0 <> "") by discriminate.
  repeat (split; [first [reflexivity | exact NE] |]).
  destruct (@change_password_session demoPlatform "Akash" "12345" "s3cret"
              (User.mk 0%N "Akash" "$2a$10$12345") 0 60000 120000 1%N demoUsers
              eq_refl eq_refl eq_refl NE eq_refl eq_refl)
    as (w1 & w2 & L1 & C & L2 & L3).
  exists w1, w2. split; [exact L1 |]. split; [exact C |]. split; [exact L2 |].
  exact (L3 eq_refl).
Defined.

Lemma register_then_list_witness :
  "R2" <> "" /\ "Bela" <> "" /\ List.length twoPhotos = 2%nat
  /\ find (byRollNo "R2") (students demoRoster) = None
  /\ exists student w1,
      post_api_students (Some "R2") (Some "Bela") (Some twoPhotos) demoRoster
      = (Responded (mkResponse 200 (RegisteredJson "Student registered" student)), w1)
      /\ fst (get_api_students w1)
         = Responded (mkResponse 200 (StudentsJson (students demoRoster ++ [student])))
      /\ exists w2,
          post_api_students (Some "R2") (Some "Cara") (Some twoPhotos) w1
          = (Responded (mkResponse 400
                          (Message "Student with this roll no already exists")), w2)
          /\ sameStore w1 w2.
Proof.
  assert (R : "R2" <> "") by discriminate.
  assert (N : "Bela" <> "") by discriminate.
  assert (N' : "Cara" <> "") by discriminate.
  split; [exact R |]. split; [exact N |]. split; [reflexivity |]. split; [reflexivity |].
  destruct (@register_then_list demoPlatform "R2" "Bela" twoPhotos demoRoster
              R N eq_refl eq_refl)
    as (student & w1 & Reg & Lst & _ & _ & _ & Again).
  exists student, w1. split; [exact Reg |]. split; [exact Lst |].
  exact (Again "Cara" twoPhotos N' eq_refl).
Defined.

Lemma users_are_never_added_or_renamed_witness :
  NoDup (map User._id (users demoUsers))
  /\ map User.username
         (users (@serve demoPlatform
                   [gatedRequest (Some "Bearer akash.session.valid")
                                 (POST_change_password "12345" "s3cret");
                    gatedRequest (Some "Bearer akash.session.valid")
                                 (POST_students (Some "R1") (Some "Asha") (Some twoPhotos));
                    gatedRequest None (POST_login "Akash" "s3cret")]
                   demoUsers))
     = ["Akash"].
Proof.
  assert (ND : NoDup (map User._id (users demoUsers))).
  { simpl. constructor; [intros [] | constructor]. }
  split; [exact ND |].
  exact (proj1 (@users_are_never_added_or_renamed demoPlatform _ demoUsers ND)).
Defined.

Lemma mark_two_students_witness :
  @dayWindow demoPlatform (@requestDate demoPlatform (Some "2024-03-01") 0)
  = (Some 1709231400000, Some 1709317799999)
  /\ @dayWindow demoPlatform (@requestDate demoPlatform None 1709287200000)
     = (Some 1709231400000, Some 1709317799999)
  /\ 3%N <> 9%N
  /\ exists rec1 w1 rec2 w2,
      @post_api_attendance_mark demoPlatform (Some 5%N) (Some 3%N) (Some "2024-03-01") 0
                                demoLedger
      = (Responded (mkResponse 200 (MarkedJson "Attendance marked" rec1)), w1)
      /\ @post_api_attendance_mark demoPlatform (Some 5%N) (Some 9%N) None 1709287200000 w1
         = (Responded (mkResponse 200 (MarkedJson "Attendance marked" rec2)), w2)
      /\ Attendance.studentsPresent rec2 = [0%N; 3%N; 9%N].
Proof.
  assert (NE : 3%N <> 9%N) by discriminate.
  split; [reflexivity |]. split; [reflexivity |]. split; [exact NE |].
  destruct (@mark_two_students demoPlatform 5%N 3%N 9%N (Some "2024-03-01") None
              0 1709287200000 demoLedger 1709231400000 1709317799999
              eq_refl eq_refl NE)
    as (rec1 & w1 & rec2 & w2 & M1 & M2 & Pr & _).
  { intros a F. injection F as <-. split; reflexivity. }
  exists rec1, w1, rec2, w2. split; [exact M1 |]. split; [exact M2 | exact Pr].
Defined.

Lemma mark_leaves_other_days_witness :
  NoDup (map Attendance._id (attendances demoLedger))
  /\ @dayWindow demoPlatform (@requestDate demoPlatform (Some "2024-03-01") 0)
     = (Some 1709231400000, Some 1709317799999)
  /\ @dayWindow demoPlatform (@requestDate demoPlatform None 1709400000000)
     = (Some 1709317800000, Some 1709404199999)
  /\ (5%N, 1709231400000) <> (5%N, 1709317800000)
  /\ fst (@get_api_attendance demoPlatform 5%N (Some "2024-03-01") 0
            (snd (@post_api_attendance_mark demoPlatform (Some 5%N) (Some 0%N) None
                                            1709400000000 demoLedger)))
     = fst (@get_api_attendance demoPlatform 5%N (Some "2024-03-01") 0 demoLedger).
Proof.
  assert (ND : NoDup (map Attendance._id (attendances demoLedger))).
  { simpl. constructor; [intros [] | constructor]. }
  assert (NE : (5%N, 1709231400000) <> (5%N, 1709317800000)) by discriminate.
  assert (NE' : (5%N, 1709317800000) <> (5%N, 1709231400000)) by discriminate.
  split; [exact ND |]. split; [reflexivity |]. split; [reflexivity |].
  split; [exact NE |].
  exact (proj2 (@mark_leaves_other_days demoPlatform 5%N 0%N None 1709400000000
                  demoLedger 1709317800000 1709404199999
                  5%N (Some "2024-03-01") 0 1709231400000 1709317799999
                  ND eq_refl eq_refl (fun E => NE E))).
Defined.

Lemma same_day_same_window_witness :
  @dayWindow demoPlatform (Some 1709287200000) = (Some 1709231400000, Some 1709317799999)
  /\ @dayWindow demoPlatform (Some 1709251200000)
     = (Some 1709231400000, Some 1709317799999)
  /\ @Day (@LocalTime demoPlatform 1709287200000)
     = @Day (@LocalTime demoPlatform 1709251200000).
Proof.
  split; [reflexivity |]. split; [reflexivity |].
  destruct (@same_day_same_window demoPlatform 1709287200000 1709251200000
              1709231400000 1709317799999 1709231400000 1709317799999
              eq_refl eq_refl) as (_ & Same & _).
  exact (proj1 Same eq_refl).
Defined.

Lemma ledger_records_well_formed_witness :
  In (Attendance.mk 0%N 5%N (Some 1709231400000) [3%N; 9%N])
     (attendances
        (@serve demoPlatform
           [gatedRequest (Some "Bearer akash.session.valid")
                         (POST_attendance_mark (Some 5%N) (Some 3%N) None);
            gatedRequest (Some "Bearer akash.session.valid")
                         (POST_attendance_mark (Some 5%N) (Some 9%N) (Some "2024-03-01"));
            gatedRequest (Some "Bearer akash.session.valid")
                         (POST_attendance_mark (Some 5%N) (Some 3%N) None)]
           emptyWorld))
  /\ [3%N; 9%N] <> [].
Proof.
  assert (Hin : In (Attendance.mk 0%N 5%N (Some 1709231400000) [3%N; 9%N])
                   (attendances
                      (@serve demoPlatform
                         [gatedRequest (Some "Bearer akash.session.valid")
                                       (POST_attendance_mark (Some 5%N) (Some 3%N) None);
                          gatedRequest (Some "Bearer akash.session.valid")
                                       (POST_attendance_mark (Some 5%N) (Some 9%N)
                                                             (Some "2024-03-01"));
                          gatedRequest (Some "Bearer akash.session.valid")
                                       (POST_attendance_mark (Some 5%N) (Some 3%N) None)]
                         emptyWorld))).
  { left. reflexivity. }
  split; [exact Hin |].
  exact (proj2 (@ledger_records_well_formed demoPlatform _) _ Hin).
Defined.

Lemma storage_filename_by_clock_witness :
  (fun _ : string => ".jpg") "face.jpg" = (fun _ : string => ".jpg") "side.jpg"
  /\ storage_filename (fun _ => ".jpg") "photos" "face.jpg" 1709287200000
     = "photos-1709287200000.jpg"
  /\ storage_filename (fun _ => ".jpg") "photos" "face.jpg" 1709287200000
     <> storage_filename (fun _ => ".jpg") "photos" "side.jpg" 1709287200001.
Proof.
  split; [reflexivity |]. split; [reflexivity |].
  intros H.
  pose proof (proj1 (storage_filename_by_clock (fun _ => ".jpg") "photos" "face.jpg"
                       "side.jpg" 1709287200000 1709287200001 eq_refl) H) as E.
  discriminate E.
Defined.

Lemma mark_twice_in_another_spelling_witness :
  "000000000000000000000005" <> "" /\ "AAAAAAAAAAAAAAAAAAAAAAAA" <> ""
  /\ @castObjectId demoBson "000000000000000000000005" = Some 5%N
  /\ @castObjectId demoBson "AAAAAAAAAAAAAAAAAAAAAAAA"
     = Some 52818775009509558395695966890%N
  /\ @toHexString demoBson 52818775009509558395695966890%N = "aaaaaaaaaaaaaaaaaaaaaaaa"
  /\ @dayWindow demoPlatform (@requestDate demoPlatform (Some "2024-03-01") 0)
     = (Some 1709231400000, Some 1709317799999)
  /\ exists rec1 w1 rec2 w2,
      @post_api_attendance_mark_text demoPlatform demoBson
        (Some "000000000000000000000005") (Some "AAAAAAAAAAAAAAAAAAAAAAAA")
        (Some "2024-03-01") 0 demoRoster
      = (Responded (mkResponse 200 (MarkedJson "Attendance marked" rec1)), w1)
      /\ @post_api_attendance_mark_text demoPlatform demoBson
           (Some "000000000000000000000005") (Some "AAAAAAAAAAAAAAAAAAAAAAAA")
           (Some "2024-03-01") 0 w1
         = (Responded (mkResponse 200 (MarkedJson "Attendance marked" rec2)), w2)
      /\ Attendance.studentsPresent rec2
         = [52818775009509558395695966890%N; 52818775009509558395695966890%N]
      /\ find (inWindow 5%N 1709231400000 1709317799999) (attendances w2) = Some rec2.
Proof.
  assert (NL : "000000000000000000000005" <> "") by discriminate.
  assert (NS : "AAAAAAAAAAAAAAAAAAAAAAAA" <> "") by discriminate.
  assert (Sp : @toHexString demoBson 52818775009509558395695966890%N
               <> "AAAAAAAAAAAAAAAAAAAAAAAA") by discriminate.
  split; [exact NL |]. split; [exact NS |].
  split; [reflexivity |]. split; [reflexivity |]. split; [reflexivity |].
  split; [reflexivity |].
  destruct (@mark_twice_in_another_spelling demoPlatform demoBson
              "000000000000000000000005" "AAAAAAAAAAAAAAAAAAAAAAAA"
              5%N 52818775009509558395695966890%N (Some "2024-03-01") (Some "2024-03-01")
              0 0 demoRoster 1709231400000 1709317799999
              NL NS eq_refl eq_refl Sp eq_refl eq_refl)
    as (rec1 & w1 & rec2 & w2 & M1 & M2 & Pr & F & _).
  { intros a Fa. discriminate Fa. }
  exists rec1, w1, rec2, w2. split; [exact M1 |]. split; [exact M2 |].
  split; [exact Pr | exact F].
Defined.

Lemma mark_twice_in_canonical_spelling_witness :
  "000000000000000000000005" <> "" /\ "aaaaaaaaaaaaaaaaaaaaaaaa" <> ""
  /\ @castObjectId demoBson "aaaaaaaaaaaaaaaaaaaaaaaa"
     = Some 52818775009509558395695966890%N
  /\ @toHexString demoBson 52818775009509558395695966890%N = "aaaaaaaaaaaaaaaaaaaaaaaa"
  /\ exists rec1 w1 w2,
      @post_api_attendance_mark_text demoPlatform demoBson
        (Some "000000000000000000000005") (Some "aaaaaaaaaaaaaaaaaaaaaaaa")
        (Some "2024-03-01") 0 demoRoster
      = (Responded (mkResponse 200 (MarkedJson "Attendance marked" rec1)), w1)
      /\ @post_api_attendance_mark_text demoPlatform demoBson
           (Some "000000000000000000000005") (Some "aaaaaaaaaaaaaaaaaaaaaaaa")
           None 1709287200000 w1
         = (Responded (mkResponse 400 (Message "Student already marked present")), w2)
      /\ sameStore w1 w2.
Proof.
  assert (NL : "000000000000000000000005" <> "") by discriminate.
  assert (NS : "aaaaaaaaaaaaaaaaaaaaaaaa" <> "") by discriminate.
  split; [exact NL |]. split; [exact NS |]. split; [reflexivity |]. split; [reflexivity |].
  destruct (@mark_twice_in_canonical_spelling demoPlatform demoBson
              "000000000000000000000005" "aaaaaaaaaaaaaaaaaaaaaaaa"
              5%N 52818775009509558395695966890%N (Some "2024-03-01") None
              0 1709287200000 demoRoster 1709231400000 1709317799999
              NL NS eq_refl eq_refl eq_refl eq_refl eq_refl)
    as (rec1 & w1 & w2 & M1 & _ & _ & M2 & Same).
  { intros a Fa. discriminate Fa. }
  exists rec1, w1, w2. split; [exact M1 |]. split; [exact M2 | exact Same].
Defined.

Lemma mark_text_agrees_with_ids_witness :
  @castObjectId demoBson "000000000000000000000005" = Some 5%N
  /\ @castObjectId demoBson "000000000000000000000000" = Some 0%N
  /\ @toHexString demoBson 0%N = "000000000000000000000000"
  /\ @post_api_attendance_mark_text demoPlatform demoBson
       (Some "000000000000000000000005") (Some "000000000000000000000000")
       None 1709287200000 demoLedger
     = @post_api_attendance_mark demoPlatform (Some 5%N) (Some 0%N) None 1709287200000
                                 demoLedger.
Proof.
  assert (NL : "000000000000000000000005" <> "") by discriminate.
  assert (NS : "000000000000000000000000" <> "") by discriminate.
  split; [reflexivity |]. split; [reflexivity |]. split; [reflexivity |].
  apply (@mark_text_agrees_with_ids demoPlatform demoBson
           "000000000000000000000005" "000000000000000000000000" 5%N 0%N
           None 1709287200000 demoLedger NL NS eq_refl eq_refl eq_refl).
  intros a id [<- | []] [<- | []] _. reflexivity.
Defined.

Lemma upload_limit_preempts_photo_check_witness :
  (2 < List.length (mkFile "photos-3.jpg" :: twoPhotos))%nat
  /\ noSpace "Bearer" = true /\ noSpace "akash.session.valid" = true
  /\ "akash.session.valid" <> ""
  /\ @jwt_verify demoPlatform "akash.session.valid" JWT_SECRET 1709287200000
     = JwtUser "Akash"
  /\ @app demoPlatform
          (gatedRequest (Some "Bearer akash.session.valid")
                        (POST_students (Some "R2") (Some "Bela")
                                       (Some (mkFile "photos-3.jpg" :: twoPhotos))))
          demoRoster
     = (Responded (mkResponse 500 (ErrorPage "MulterError: Unexpected field")), demoRoster)
  /\ post_api_students (Some "R2") (Some "Bela")
                       (Some (mkFile "photos-3.jpg" :: twoPhotos)) demoRoster
     = (Responded (mkResponse 400 (Message "Two photos required")), demoRoster).
Proof.
  assert (NE : "akash.session.valid" <> "") by discriminate.
  assert (L : (2 < List.length (mkFile "photos-3.jpg" :: twoPhotos))%nat) by (simpl; lia).
  split; [exact L |]. split; [reflexivity |]. split; [reflexivity |]. split; [exact NE |].
  split; [reflexivity |].
  destruct (@upload_limit_preempts_photo_check demoPlatform (Some "R2") (Some "Bela")
              (mkFile "photos-3.jpg" :: twoPhotos) "Bearer" "akash.session.valid" "Akash"
              1709287200000 0%N demoRoster L eq_refl eq_refl NE eq_refl)
    as [Route Handler].
  split; [exact Route | exact (Handler eq_refl eq_refl)].
Defined.

